(** * Order-format and request-authentication scripts of prediction-terminal

    A shallow embedding of the two Python scripts that pin down the wire
    contract of the trading client:

    - [test_hmac.py]: the HMAC-SHA256 request signature, computed the way the
      Python CLOB client computes it, on the inputs logged by the Rust client;
    - [compare_formats.py]: the field-by-field comparison of the order
      dictionary produced by the Python client with the one produced by the
      Rust client.

    Python [str] values are modelled by [string], read as the UTF-8 code units
    of the text (so [str.encode()] is the identity on the underlying octets and
    a non-ASCII code point is a run of octets above 127); [bytes] values are
    lists of [byte]; a [dict] is an association list in insertion order whose
    keys are pairwise distinct.  Printing is not modelled: every function
    returns what the script prints or returns.  The third script,
    [test_polymarket_order.py], only drives the network client and is not
    modelled. *)

From Stdlib Require Import ZArith String Ascii List Lia.
From Stdlib Require Import DecimalString DecimalPos DecimalZ.
From Stdlib Require Import Init.Byte.
From stdpp Require Import gmap strings list.

Local Open Scope string_scope.

(** ** Python values, exceptions and strings *)

Module Py.

(** The values that occur in the order dictionaries: [None] (the result of
    [dict.get] on an absent key), integers and strings. *)
Inductive pyval : Type :=
| PyNone
| PyInt (z : Z)
| PyStr (s : string).

(** The exceptions the modelled library calls raise. *)
Inductive pyexn : Type :=
| binascii_Error (msg : string)
| ValueError (msg : string).

Inductive result (A : Type) : Type :=
| Ok (a : A)
| Raise (e : pyexn).
Arguments Ok {A} a.
Arguments Raise {A} e.

(** Exceptions propagate: the rest of a computation runs on [Ok] only.
    The instance gives the notation [x ← r; k]. *)
#[global] Instance result_bind : MBind result :=
  fun A B (k : A -> result B) (r : result A) =>
    match r with
    | Ok a => k a
    | Raise e => Raise e
    end.

Definition is_Ok {A} (r : result A) : bool :=
  match r with
  | Ok _ => true
  | Raise _ => false
  end.

Definition bytes : Type := list byte.

(** [str(int)]: the decimal numeral, with a leading minus sign below zero. *)
Definition str_of_int (z : Z) : string := NilZero.string_of_int (Z.to_int z).

(** [str(x)]. *)
Definition str (v : pyval) : string :=
  match v with
  | PyNone => "None"
  | PyInt z => str_of_int z
  | PyStr s => s
  end.

(** [type(x).__name__]. *)
Definition type_name (v : pyval) : string :=
  match v with
  | PyNone => "NoneType"
  | PyInt _ => "int"
  | PyStr _ => "str"
  end.

(** [x == y]: an integer never equals a string, and [None] equals only
    itself. *)
Definition eqb (x y : pyval) : bool :=
  match x, y with
  | PyNone, PyNone => true
  | PyInt a, PyInt b => Z.eqb a b
  | PyStr a, PyStr b => String.eqb a b
  | _, _ => false
  end.

(** Truth value of a string: [if body:]. *)
Definition truthy (s : string) : bool :=
  match s with
  | EmptyString => false
  | String _ _ => true
  end.

(** [s.replace(old, new)] for one-character [old] and [new]. *)
Fixpoint replace (old new : ascii) (s : string) : string :=
  match s with
  | EmptyString => EmptyString
  | String c rest =>
      String (if Ascii.eqb c old then new else c) (replace old new rest)
  end.

(** [s.rstrip(ch)] for a one-character argument. *)
Fixpoint rstrip (ch : ascii) (s : string) : string :=
  match s with
  | EmptyString => EmptyString
  | String c rest =>
      match rstrip ch rest with
      | EmptyString => if Ascii.eqb c ch then EmptyString else String c EmptyString
      | r => String c r
      end
  end.

(** [s.encode()]: on the UTF-8 reading of [string] the octets themselves. *)
Definition str_encode (s : string) : bytes :=
  map byte_of_ascii (list_ascii_of_string s).

(** [b.decode("utf-8")], used on base64 text only. *)
Definition bytes_decode (b : bytes) : string :=
  string_of_list_ascii (map ascii_of_byte b).

(** [s.encode("ascii")] as [base64._bytes_from_decode_data] does it: a
    string with a non-ASCII character is refused with [ValueError]. *)
Definition encode_ascii (s : string) : result bytes :=
  if forallb (fun c => (N_of_ascii c <? 128)%N) (list_ascii_of_string s)
  then Ok (str_encode s)
  else Raise (ValueError "string argument should contain only ASCII characters").

(** Dictionaries in insertion order. *)
Definition dict : Type := list (string * pyval).

Definition keys (d : dict) : list string := map fst d.

(** [d.get(key)], with [None] for an absent key. *)
Fixpoint get (d : dict) (key : string) : pyval :=
  match d with
  | [] => PyNone
  | (k, v) :: rest => if String.eqb k key then v else get rest key
  end.

(** [d[key] = v]: the value of a present key is replaced where it stands,
    a new key goes to the end. *)
Fixpoint setitem (d : dict) (key : string) (v : pyval) : dict :=
  match d with
  | [] => [(key, v)]
  | (k, x) :: rest =>
      if String.eqb k key then (k, v) :: rest else (k, x) :: setitem rest key v
  end.

(** [set(d.keys())]. *)
Definition key_set (d : dict) : gset string := list_to_set (keys d).

End Py.


(** ** [base64.urlsafe_b64decode] and [base64.urlsafe_b64encode]

    The library functions the signature code calls, as CPython implements
    them: [urlsafe_b64decode] turns a [str] into ASCII octets, maps [-] and
    [_] to [+] and [/], and hands the result to [binascii.a2b_base64] in its
    default, non-strict mode. *)

Module Base64.
Import Py.
Local Open Scope Z_scope.

Definition code (b : byte) : Z := Z.of_N (Byte.to_N b).

Definition byte_of (z : Z) : byte :=
  match Byte.of_N (Z.to_N z) with
  | Some b => b
  | None => x00
  end.

(** [table_a2b_base64]: the value of a character of the standard alphabet. *)
Definition a2b (b : byte) : option Z :=
  let c := code b in
  if (65 <=? c) && (c <=? 90) then Some (c - 65)
  else if (97 <=? c) && (c <=? 122) then Some (c - 71)
  else if (48 <=? c) && (c <=? 57) then Some (c + 4)
  else if c =? 43 then Some 62
  else if c =? 47 then Some 63
  else None.

(** [table_b2a_base64]. *)
Definition b2a (v : Z) : byte :=
  byte_of (if v <? 26 then v + 65
           else if v <? 52 then v + 71
           else if v <? 62 then v - 4
           else if v =? 62 then 43 else 47).

Definition PAD : byte := "="%byte.

(** The two errors of the decoder.  The first carries the number of data
    characters read. *)
Definition short_group (n : nat) : pyexn :=
  binascii_Error
    ("Invalid base64-encoded string: number of data characters ("
     +:+ str_of_int (Z.of_nat n)
     +:+ ") cannot be 1 more than a multiple of 4").

Definition incorrect_padding : pyexn := binascii_Error "Incorrect padding".

(** After the loop: input that ends inside a group of four is an error, one
    character into the group or more.  The number of data characters in the
    first message is worked out from the octets written, as
    [(bin_data - bin_data_start) / 3 * 4 + 1]. *)
Definition at_end (quad_pos : nat) (out : bytes) : result bytes :=
  match quad_pos with
  | O => Ok (rev out)
  | 1%nat => Raise (short_group (length out / 3 * 4 + 1))
  | _ => Raise incorrect_padding
  end.


(** The loop of [binascii.a2b_base64] without [strict_mode].  [quad_pos]
    counts the alphabet characters of the current group of four, [leftchar]
    holds the bits not yet written, [pad_count] the padding characters met
    since the last alphabet character (counted from the third position of a
    group on).  Characters outside the alphabet are skipped; padding that
    completes a group ends the decoding; input that ends inside a group is
    an error. *)
Fixpoint a2b_loop (data : bytes) (quad_pos : nat) (leftchar : Z)
         (pad_count : nat) (out : bytes) : result bytes :=
  match data with
  | [] => at_end quad_pos out
  | this_ch :: rest =>
      if Byte.eqb this_ch PAD then
        if (2 <=? quad_pos)%nat then
          if (4 <=? quad_pos + S pad_count)%nat then Ok (rev out)
          else a2b_loop rest quad_pos leftchar (S pad_count) out
        else a2b_loop rest quad_pos leftchar pad_count out
      else
        match a2b this_ch with
        | None => a2b_loop rest quad_pos leftchar pad_count out
        | Some v =>
            match quad_pos with
            | O => a2b_loop rest 1 v 0 out
            | 1%nat =>
                a2b_loop rest 2 (Z.land v 15) 0
                  (byte_of (Z.lor (Z.shiftl leftchar 2) (Z.shiftr v 4)) :: out)
            | 2%nat =>
                a2b_loop rest 3 (Z.land v 3) 0
                  (byte_of (Z.lor (Z.shiftl leftchar 4) (Z.shiftr v 2)) :: out)
            | _ =>
                a2b_loop rest 0 0 0
                  (byte_of (Z.lor (Z.shiftl leftchar 6) v) :: out)
            end
        end
  end.

Definition a2b_base64 (data : bytes) : result bytes := a2b_loop data 0 0 0 [].

(** [bytes.translate(_urlsafe_decode_translation)]. *)
Definition urlsafe_decode_translation (b : byte) : byte :=
  if Byte.eqb b "-"%byte then "+"%byte
  else if Byte.eqb b "_"%byte then "/"%byte
  else b.

Definition urlsafe_b64decode (s : string) : result bytes :=
  b ← encode_ascii s;
  a2b_base64 (map urlsafe_decode_translation b).

(** [binascii.b2a_base64(s, newline=False)]: three octets give four
    characters, a last group of one or two octets is padded with [=]. *)
Fixpoint b2a_base64 (data : bytes) : bytes :=
  match data with
  | [] => []
  | [x] =>
      let n := code x in
      [b2a (Z.shiftr n 2); b2a (Z.shiftl (Z.land n 3) 4); PAD; PAD]
  | [x; y] =>
      let n := code x * 256 + code y in
      [b2a (Z.shiftr n 10); b2a (Z.land (Z.shiftr n 4) 63);
       b2a (Z.shiftl (Z.land n 15) 2); PAD]
  | x :: y :: z :: rest =>
      let n := (code x * 256 + code y) * 256 + code z in
      b2a (Z.shiftr n 18) :: b2a (Z.land (Z.shiftr n 12) 63)
      :: b2a (Z.land (Z.shiftr n 6) 63) :: b2a (Z.land n 63)
      :: b2a_base64 rest
  end.

(** [bytes.translate(_urlsafe_encode_translation)]. *)
Definition urlsafe_encode_translation (b : byte) : byte :=
  if Byte.eqb b "+"%byte then "-"%byte
  else if Byte.eqb b "/"%byte then "_"%byte
  else b.

Definition urlsafe_b64encode (data : bytes) : bytes :=
  map urlsafe_encode_translation (b2a_base64 data).

(** The characters [urlsafe_b64decode] gives a value to: the letters, the
    digits, and [-], [_], [+], [/]. *)
Definition urlsafe_char (c : ascii) : bool :=
  match a2b (urlsafe_decode_translation (byte_of_ascii c)) with
  | Some _ => true
  | None => false
  end.

(** What is needed of the character of a sextet for the decoder to read it
    back: it has the value of the sextet, it is not the padding character, the
    two translations cancel on it, and it is an ASCII character. *)
Definition sextet_ok (v : Z) : bool :=
  match a2b (b2a v) with
  | Some u => u =? v
  | None => false
  end
  && negb (Byte.eqb (b2a v) PAD)
  && Byte.eqb (urlsafe_decode_translation (urlsafe_encode_translation (b2a v))) (b2a v)
  && (N_of_ascii (ascii_of_byte (urlsafe_encode_translation (b2a v))) <? 128)%N.

End Base64.

(** ** [hashlib.sha256] (FIPS 180-4)

    Words are integers below [2^32]; every sum is reduced by [wrap32]. *)

Module SHA256.
Import Py.
Local Open Scope list_scope.
Local Open Scope Z_scope.

Definition wrap32 (x : Z) : Z := Z.land x (Z.ones 32).
Definition add32 (x y : Z) : Z := wrap32 (x + y).
Definition rotr (n x : Z) : Z :=
  Z.lor (Z.shiftr x n) (wrap32 (Z.shiftl x (32 - n))).

Definition Ch (x y z : Z) : Z :=
  Z.lxor (Z.land x y) (Z.land (Z.lxor x (Z.ones 32)) z).
Definition Maj (x y z : Z) : Z :=
  Z.lxor (Z.lxor (Z.land x y) (Z.land x z)) (Z.land y z).
Definition Sigma0 (x : Z) : Z :=
  Z.lxor (Z.lxor (rotr 2 x) (rotr 13 x)) (rotr 22 x).
Definition Sigma1 (x : Z) : Z :=
  Z.lxor (Z.lxor (rotr 6 x) (rotr 11 x)) (rotr 25 x).
Definition sigma0 (x : Z) : Z :=
  Z.lxor (Z.lxor (rotr 7 x) (rotr 18 x)) (Z.shiftr x 3).
Definition sigma1 (x : Z) : Z :=
  Z.lxor (Z.lxor (rotr 17 x) (rotr 19 x)) (Z.shiftr x 10).

(** The constants are what the standard says they are: the first 32 bits of
    the fractional parts of the cube roots (round constants) and of the
    square roots (initial hash value) of the first primes. *)
Definition is_prime (n : Z) : bool :=
  forallb (fun d => negb (n mod d =? 0)) (map Z.of_nat (seq 2 (Z.to_nat n - 2))).

Definition primes64 : list Z :=
  Eval vm_compute in firstn 64 (filter is_prime (map Z.of_nat (seq 2 310))).

(** Integer cube root, one bit at a time from bit 35 down. *)
Definition icbrt (x : Z) : Z :=
  fold_left (fun r i => let c := r + 2 ^ i in if c * c * c <=? x then c else r)
            (map Z.of_nat (rev (seq 0 36))) 0.

Definition K : list Z :=
  Eval vm_compute in map (fun p => wrap32 (icbrt (p * 2 ^ 96))) primes64.

Definition H0 : list Z :=
  Eval vm_compute in map (fun p => wrap32 (Z.sqrt (p * 2 ^ 64))) (firstn 8 primes64).

(** Big-endian octets of a number and back. *)
Definition be_bytes (n : nat) (x : Z) : bytes :=
  map (fun i => Base64.byte_of (Z.land (Z.shiftr x (8 * Z.of_nat i)) 255))
      (rev (seq 0 n)).

Definition be_word (bs : bytes) : Z :=
  fold_left (fun acc b => acc * 256 + Base64.code b) bs 0.

(** Padding: the bit 1, zeros up to 56 modulo 64 octets, then the length of
    the message in bits on 8 octets. *)
Definition pad (msg : bytes) : bytes :=
  let l := Z.of_nat (length msg) in
  msg ++ x80 :: repeat x00 (Z.to_nat ((55 - l) mod 64)) ++ be_bytes 8 (8 * l).

(** Consecutive pieces of [n] elements; [fuel] bounds their number. *)
Fixpoint chunks (fuel n : nat) (l : bytes) : list bytes :=
  match fuel, l with
  | O, _ | _, [] => []
  | S f, _ => firstn n l :: chunks f n (skipn n l)
  end.

(** The message schedule, newest word first while it is built. *)
Definition schedule_step (rw : list Z) : list Z :=
  add32 (add32 (sigma1 (nth 1 rw 0)) (nth 6 rw 0))
        (add32 (sigma0 (nth 14 rw 0)) (nth 15 rw 0)) :: rw.

Definition schedule (block : bytes) : list Z :=
  rev (Nat.iter 48 schedule_step (rev (map be_word (chunks 16 4 block)))).

Definition round (s : list Z) (kw : Z * Z) : list Z :=
  match s with
  | [a; b; c; d; e; f; g; h] =>
      let t1 :=
        add32 (add32 (add32 h (Sigma1 e)) (add32 (Ch e f g) (fst kw))) (snd kw) in
      let t2 := add32 (Sigma0 a) (Maj a b c) in
      [add32 t1 t2; a; b; c; add32 d t1; e; f; g]
  | _ => s
  end.

Definition compress (h : list Z) (block : bytes) : list Z :=
  map (fun p => add32 (fst p) (snd p))
      (combine h (fold_left round (combine K (schedule block)) h)).

(** [hashlib.sha256(msg).digest()]. *)
Definition sha256 (msg : bytes) : bytes :=
  let p := pad msg in
  flat_map (be_bytes 4) (fold_left compress (chunks (length p) 64 p) H0).

End SHA256.

(** ** [hmac.new(key, msg, hashlib.sha256).digest()] (RFC 2104) *)

Module HMAC.
Import Py.
Local Open Scope list_scope.

Definition block_size : nat := 64.

Definition xor_with (c : Z) (b : byte) : byte :=
  Base64.byte_of (Z.lxor (Base64.code b) c).

(** A key longer than a block is hashed first; the key is then filled with
    zero octets up to the block size. *)
Definition block_key (key : bytes) : bytes :=
  let k := if (block_size <? length key)%nat then SHA256.sha256 key else key in
  k ++ repeat x00 (block_size - length k).

Definition hmac_sha256 (key msg : bytes) : bytes :=
  let k := block_key key in
  let inner := SHA256.sha256 (map (xor_with 54) k ++ msg) in
  SHA256.sha256 (map (xor_with 92) k ++ inner).

End HMAC.

(** ** test_hmac.py *)

Module TestHmac.
Import Py.

Definition SECRET_BASE64 : string := "L95OWCgbprfwozNeNUYnvU7A91iM-EH3uDZ6RTZYa-w=".
Definition TIMESTAMP : pyval := PyStr "1765824355".
Definition METHOD : string := "POST".
Definition PATH : string := "/order".

Definition single_quote : ascii := "039"%char.
Definition double_quote : ascii := "034"%char.

(** The body is a single-quoted Python literal; its text contains the double
    quotes of the JSON document, put in here between the pieces. *)
Definition dq : string := String double_quote EmptyString.

Definition BODY : string :=
  String.concat dq
    ["{"; "order"; ":{"; "salt"; ":327896216,"; "maker"; ":";
     "0xefa7cd2e9bfa38f04af95df90da90b194e4ed191"; ","; "signer"; ":";
     "0xefa7cd2e9bfa38f04af95df90da90b194e4ed191"; ","; "taker"; ":";
     "0x0000000000000000000000000000000000000000"; ","; "tokenId"; ":";
     "59123046651639406043770531564026866824584320057748742767920960374229735119462";
     ","; "makerAmount"; ":"; "85000"; ","; "takerAmount"; ":"; "100000"; ",";
     "expiration"; ":"; "0"; ","; "nonce"; ":"; "0"; ","; "feeRateBps"; ":";
     "0"; ","; "side"; ":"; "BUY"; ","; "signatureType"; ":0,"; "signature";
     ":";
     "0x6c96640200869044e2d77ffb01e69209a415d4818a122f297362248ca69246a91c83a52829dd5946e8d0ba36c8afef55592d43b0a8b19327e486846b6f5ec0481c";
     "},"; "owner"; ":"; "1a846e10-1906-c373-b2b9-c853e39a334a"; ",";
     "orderType"; ":"; "GTC"; "}"].

(** Lines 23-27: the text that is authenticated. *)
Definition hmac_message (timestamp : pyval) (method request_path body : string)
  : string :=
  let message := str timestamp +:+ method +:+ request_path in
  if truthy body
  then message +:+ replace single_quote double_quote body
  else message.

(** [build_hmac_signature_python_client]: the message, the decoded secret,
    the HMAC and its URL-safe base64 text. *)
Definition build_hmac_signature_python_client
           (secret : string) (timestamp : pyval)
           (method request_path body : string) : result string :=
  let message := hmac_message timestamp method request_path body in
  decoded_secret ← Base64.urlsafe_b64decode secret;
  let result_bytes := HMAC.hmac_sha256 decoded_secret (str_encode message) in
  let signature := bytes_decode (Base64.urlsafe_b64encode result_bytes) in
  Ok signature.

(** The signature the Rust client logged for the same request. *)
Definition RUST_SIGNATURE : string := "fPOEaxvya1QbVkoRPNrv-kxPjv16Ni_mxrqMgCzm-hc".

(** [main]: the signature of the fixture and the verdict printed after
    [Match:]. *)
Definition main : result (string * bool) :=
  sig ← build_hmac_signature_python_client SECRET_BASE64 TIMESTAMP METHOD PATH BODY;
  Ok (sig, String.eqb (rstrip "="%char sig) RUST_SIGNATURE).

End TestHmac.

(** ** compare_formats.py *)

Module CompareFormats.
Import Py.

(** The order the Python client sent. *)
Definition PYTHON_ORDER : dict :=
  [ ("salt", PyInt 1297788380);
    ("maker", PyStr "0xeFa7Cd2E9BFa38F04Af95df90da90B194e4ed191");
    ("signer", PyStr "0xeFa7Cd2E9BFa38F04Af95df90da90B194e4ed191");
    ("taker", PyStr "0x0000000000000000000000000000000000000000");
    ("tokenId",
     PyStr "59123046651639406043770531564026866824584320057748742767920960374229735119462");
    ("makerAmount", PyStr "85000");
    ("takerAmount", PyStr "100000");
    ("expiration", PyStr "0");
    ("nonce", PyStr "0");
    ("feeRateBps", PyStr "0");
    ("side", PyStr "BUY");
    ("signatureType", PyInt 0);
    ("signature",
     PyStr "0xf17d2cdb17146baacbf404baf3e4857b651d74c89fec74a79fd987ca59e0442572d684f0b1951de5b2746082b6765ade05a3168606f6d3dc24423d1603c34be01b") ].

(** The order the Rust client logged. *)
Definition RUST_ORDER : dict :=
  [ ("salt", PyInt 425011855);
    ("maker", PyStr "0xeFa7Cd2E9BFa38F04Af95df90da90B194e4ed191");
    ("signer", PyStr "0xeFa7Cd2E9BFa38F04Af95df90da90B194e4ed191");
    ("taker", PyStr "0x0000000000000000000000000000000000000000");
    ("tokenId",
     PyStr "59123046651639406043770531564026866824584320057748742767920960374229735119462");
    ("makerAmount", PyStr "85000");
    ("takerAmount", PyStr "100000");
    ("expiration", PyStr "0");
    ("nonce", PyStr "0");
    ("feeRateBps", PyStr "0");
    ("side", PyStr "BUY");
    ("signatureType", PyInt 0);
    ("signature",
     PyStr "0x9456c9d3c3a06b227eb067c210fa1221de0455ace43bcd5b3404e3b24cbb1d624e5bc1775909793ad3d9749b1f1f71eebf959e6e92419fc4eb635afe44ed3b921b") ].

(** [key in ["salt", "signature"]]. *)
Definition excluded (key : string) : bool :=
  existsb (String.eqb key) ["salt"; "signature"].

(** What one turn of the loop works out for a key.  [match_] is the mark
    printed after [Match:]; [type_match] is the mark printed for [salt] and
    [signature] only. *)
Record field_result : Type := {
  key : string;
  py_val : pyval;
  rust_val : pyval;
  py_type : string;
  rust_type : string;
  match_ : bool;
  type_match : option bool
}.

(** Lines 41-51, for the reference value and the value [RUST_ORDER.get(key)]
    returned. *)
Definition compare_field (k : string) (pv rv : pyval) : field_result :=
  let pt := type_name pv in
  let rt := match rv with PyNone => "MISSING" | _ => type_name rv end in
  {| key := k;
     py_val := pv;
     rust_val := rv;
     py_type := pt;
     rust_type := rt;
     match_ := eqb pv rv || excluded k;
     type_match := if excluded k then Some (String.eqb pt rt) else None |}.

(** Lines 40-63: one result per key of the reference, in its order. *)
Definition field_loop (python_order rust_order : dict) : list field_result :=
  map (fun k => compare_field k (get python_order k) (get rust_order k))
      (keys python_order).

(** Lines 66-74: what is printed about the key sets, namely the extra keys
    when there are some, the missing keys when there are some, and whether
    the two sets are the same. *)
Record key_result : Type := {
  extra_in_rust : gset string;
  missing_in_rust : gset string;
  same_keys : bool
}.

Definition key_check (python_order rust_order : dict) : key_result :=
  let rust_keys := key_set rust_order in
  let python_keys := key_set python_order in
  {| extra_in_rust := rust_keys ∖ python_keys;
     missing_in_rust := python_keys ∖ rust_keys;
     same_keys := bool_decide (rust_keys = python_keys) |}.

(** Modelled from the spec: the [ConformanceReport] of
    [ConformanceChecker.compare], which the script does not build (it prints
    the field results and the key sets and draws no overall verdict).  The
    field results and the key sets are those of the script; the left
    candidate is the reference.  [overallMatch] is true iff every
    non-excluded field matched and no extra or missing keys exist. *)
Record ConformanceReport : Type := {
  fieldResults : list field_result;
  extraKeysLeft : gset string;
  extraKeysRight : gset string;
  missingKeysLeft : gset string;
  missingKeysRight : gset string;
  overallMatch : bool
}.

(** Modelled from the spec: [ConformanceChecker.compare], which the script
    does not have as a function.  The field results are those of the loop,
    the key sets those of the key check; the keys the candidate alone has
    are extra on the right and missing on the left, the keys the reference
    alone has are missing on the right and extra on the left. *)
Definition compare (reference candidate : dict) : ConformanceReport :=
  let fields := field_loop reference candidate in
  let ks := key_check reference candidate in
  {| fieldResults := fields;
     extraKeysLeft := missing_in_rust ks;
     extraKeysRight := extra_in_rust ks;
     missingKeysLeft := extra_in_rust ks;
     missingKeysRight := missing_in_rust ks;
     overallMatch :=
       forallb (fun r => excluded (key r) || match_ r) fields
       && bool_decide (extra_in_rust ks = ∅)
       && bool_decide (missing_in_rust ks = ∅) |}.

End CompareFormats.

(** ** Notions the statements below are phrased with *)

Module Text.
Local Open Scope N_scope.

Definition is_digit (c : ascii) : bool :=
  let n := N_of_ascii c in (48 <=? n) && (n <=? 57).

Definition is_hex_digit (c : ascii) : bool :=
  let n := N_of_ascii c in
  is_digit c || ((65 <=? n) && (n <=? 70)) || ((97 <=? n) && (n <=? 102)).

(** A decimal numeral: at least one character, digits only. *)
Definition is_decimal_string (s : string) : bool :=
  match s with
  | EmptyString => false
  | _ => forallb is_digit (list_ascii_of_string s)
  end.

(** The number a decimal numeral denotes, leading zeros allowed. *)
Definition numeric_value (s : string) : option Z :=
  if is_decimal_string s
  then Some (fold_left (fun acc c => acc * 10 + Z.of_N (N_of_ascii c - 48))%Z
                       (list_ascii_of_string s) 0%Z)
  else None.

(** [s.lower()] on ASCII letters. *)
Definition lower_char (c : ascii) : ascii :=
  let n := N_of_ascii c in
  if (65 <=? n) && (n <=? 90) then ascii_of_N (n + 32) else c.

Fixpoint lower (s : string) : string :=
  match s with
  | EmptyString => EmptyString
  | String c rest => String (lower_char c) (lower rest)
  end.

(** A 20-byte address: [0x] and forty hexadecimal digits. *)
Definition is_address (s : string) : bool :=
  match s with
  | String "0" (String "x" digits) =>
      Nat.eqb (String.length digits) 40
      && forallb is_hex_digit (list_ascii_of_string digits)
  | _ => false
  end.

Definition hex_digit (n : N) : ascii :=
  ascii_of_N (if n <? 10 then n + 48 else n + 87).

(** Lower-case hexadecimal text of a byte string. *)
Fixpoint hex (b : list byte) : string :=
  match b with
  | [] => EmptyString
  | x :: rest =>
      let n := Byte.to_N x in
      String (hex_digit (n / 16)) (String (hex_digit (n mod 16)) (hex rest))
  end.

(** The fields of an order in the declared order of the data model. *)
Definition declared_field_order : list string :=
  ["salt"; "maker"; "signer"; "taker"; "tokenId"; "makerAmount";
   "takerAmount"; "expiration"; "nonce"; "feeRateBps"; "side";
   "signatureType"; "signature"].

(** The integer-like fields: those sent as decimal strings, and the two
    sent as native integers. *)
Definition decimal_string_fields : list string :=
  ["tokenId"; "makerAmount"; "takerAmount"; "expiration"; "nonce";
   "feeRateBps"].

Definition native_integer_fields : list string := ["salt"; "signatureType"].

Definition integer_like_fields : list string :=
  ("salt" :: decimal_string_fields ++ ["signatureType"])%list.

Definition is_decimal_string_value (v : Py.pyval) : bool :=
  match v with
  | Py.PyStr s => is_decimal_string s
  | _ => false
  end.

Definition is_native_integer (v : Py.pyval) : bool :=
  match v with
  | Py.PyInt _ => true
  | _ => false
  end.

End Text.

(** ** OrderCodec *)

Module OrderCodec.
Import Py.

(** Modelled from the spec: the error kinds of section 7 that the order
    operations raise. *)
Inductive error : Type :=
| InvalidAddress
| AmountOverflow
| InvalidSide
| InvalidSignatureType
| InvalidSignatureLength.

(** Modelled from the spec: the parameters of [buildOrder] other than the
    salt.  Numeric fields are non-negative integers of arbitrary precision;
    the side arrives as its name. *)
Record OrderParams : Type := {
  p_maker : string;
  p_signer : string;
  p_taker : string;
  p_tokenId : N;
  p_makerAmount : N;
  p_takerAmount : N;
  p_expiration : N;
  p_nonce : N;
  p_feeRateBps : N;
  p_side : string;
  p_signatureType : N
}.

(** Modelled from the spec: the [CanonicalOrder] of section 3; the
    signature is absent until the order is signed. *)
Record CanonicalOrder : Type := {
  salt : N;
  maker : string;
  signer : string;
  taker : string;
  tokenId : N;
  makerAmount : N;
  takerAmount : N;
  expiration : N;
  nonce : N;
  feeRateBps : N;
  side : string;
  signatureType : N;
  signature : option bytes
}.

Section Codec.

(** The known signature schemes, the canonical encoding and the external
    signer are not part of the scripts; the operations take them as
    given. *)
Variable known_signature_type : N -> bool.
Variable encodeForSigning : CanonicalOrder -> bytes.
Variable sign : bytes -> bytes.

(** Modelled from the spec: [buildOrder] of section 4.1, which is not
    among the scripts.  It fails with [InvalidAddress] if an address is
    not a well-formed 20-byte hex string, with [AmountOverflow] if a
    numeric field exceeds its declared width (64 bits for the salt, 256
    bits for the token id), with [InvalidSide] or [InvalidSignatureType]
    outside the enumerated sets, and returns the unsigned order
    otherwise. *)
Definition buildOrder (p : OrderParams) (fresh_salt : N)
  : error + CanonicalOrder :=
  if negb (Text.is_address (p_maker p) && Text.is_address (p_signer p)
           && Text.is_address (p_taker p))
  then inl InvalidAddress
  else if negb ((fresh_salt <? 2 ^ 64)%N && (p_tokenId p <? 2 ^ 256)%N)
  then inl AmountOverflow
  else if negb (String.eqb (p_side p) "BUY" || String.eqb (p_side p) "SELL")
  then inl InvalidSide
  else if negb (known_signature_type (p_signatureType p))
  then inl InvalidSignatureType
  else inr {| salt := fresh_salt;
              maker := p_maker p;
              signer := p_signer p;
              taker := p_taker p;
              tokenId := p_tokenId p;
              makerAmount := p_makerAmount p;
              takerAmount := p_takerAmount p;
              expiration := p_expiration p;
              nonce := p_nonce p;
              feeRateBps := p_feeRateBps p;
              side := p_side p;
              signatureType := p_signatureType p;
              signature := None |}.

(** Modelled from the spec: [attachSignature] of section 4.1, which is not
    among the scripts: a new record with the signature set, or
    [InvalidSignatureLength] if it is not exactly 65 bytes. *)
Definition attachSignature (o : CanonicalOrder) (sig : bytes)
  : error + CanonicalOrder :=
  if Nat.eqb (length sig) 65
  then inr {| salt := salt o;
              maker := maker o;
              signer := signer o;
              taker := taker o;
              tokenId := tokenId o;
              makerAmount := makerAmount o;
              takerAmount := takerAmount o;
              expiration := expiration o;
              nonce := nonce o;
              feeRateBps := feeRateBps o;
              side := side o;
              signatureType := signatureType o;
              signature := Some sig |}
  else inl InvalidSignatureLength.

(** Modelled from the spec: the data flow of section 2, which is not among
    the scripts: the order is built, its canonical encoding is signed by
    the external signer, and the signature is attached. *)
Definition signedOrder (p : OrderParams) (fresh_salt : N)
  : error + CanonicalOrder :=
  match buildOrder p fresh_salt with
  | inl e => inl e
  | inr o => attachSignature o (sign (encodeForSigning o))
  end.

End Codec.

Definition dec (n : N) : string := str_of_int (Z.of_N n).

(** Modelled from the spec: [serializeForTransport] of section 4.1, which is
    not among the scripts, up to the JSON text: the object with the fields
    in the declared order, numeric fields as decimal strings, the signature
    type as a native integer, addresses as given, the signature as
    [0x]-prefixed hexadecimal text.  The salt is the bare integer that the
    two recorded orders show. *)
Definition serializeForTransport (o : CanonicalOrder) : dict :=
  ([ ("salt", PyInt (Z.of_N (salt o)));
      ("maker", PyStr (maker o));
      ("signer", PyStr (signer o));
      ("taker", PyStr (taker o));
      ("tokenId", PyStr (dec (tokenId o)));
      ("makerAmount", PyStr (dec (makerAmount o)));
      ("takerAmount", PyStr (dec (takerAmount o)));
      ("expiration", PyStr (dec (expiration o)));
      ("nonce", PyStr (dec (nonce o)));
      ("feeRateBps", PyStr (dec (feeRateBps o)));
      ("side", PyStr (side o));
      ("signatureType", PyInt (Z.of_N (signatureType o))) ]
   ++ match signature o with
      | Some sig => [("signature", PyStr ("0x" +:+ Text.hex sig))]
      | None => []
      end)%list.

(** The parameters and the salts of the two orders that compare_formats.py
    records. *)
Definition recorded_params : OrderParams :=
  {| p_maker := "0xeFa7Cd2E9BFa38F04Af95df90da90B194e4ed191";
     p_signer := "0xeFa7Cd2E9BFa38F04Af95df90da90B194e4ed191";
     p_taker := "0x0000000000000000000000000000000000000000";
     p_tokenId :=
       59123046651639406043770531564026866824584320057748742767920960374229735119462;
     p_makerAmount := 85000;
     p_takerAmount := 100000;
     p_expiration := 0;
     p_nonce := 0;
     p_feeRateBps := 0;
     p_side := "BUY";
     p_signatureType := 0 |}.

Definition python_salt : N := 1297788380.
Definition rust_salt : N := 425011855.

(** A dictionary without one of its keys. *)
Definition without (key : string) (d : dict) : dict :=
  filter (fun kv => negb (String.eqb (fst kv) key)) d.

End OrderCodec.

(** ** The recorded orders as records *)

Module Recorded.
Import Py OrderCodec.

Definition hex_value (c : ascii) : N :=
  let n := N_of_ascii c in
  (if n <? 58 then n - 48 else if n <? 71 then n - 55 else n - 87)%N.

(** The octets that a hexadecimal text writes, two digits each. *)
Fixpoint unhex (s : string) : bytes :=
  match s with
  | String a (String b rest) =>
      match Byte.of_N (16 * hex_value a + hex_value b) with
      | Some x => x :: unhex rest
      | None => []
      end
  | _ => []
  end.

(** The signed order with the given parameters, salt and signature. *)
Definition order_of (p : OrderParams) (s : N) (sig : bytes) : CanonicalOrder :=
  {| salt := s;
     maker := p_maker p;
     signer := p_signer p;
     taker := p_taker p;
     tokenId := p_tokenId p;
     makerAmount := p_makerAmount p;
     takerAmount := p_takerAmount p;
     expiration := p_expiration p;
     nonce := p_nonce p;
     feeRateBps := p_feeRateBps p;
     side := p_side p;
     signatureType := p_signatureType p;
     signature := Some sig |}.

(** The order of the Python client and the order of the Rust client that
    compare_formats.py records. *)
Definition python_order : CanonicalOrder :=
  order_of recorded_params python_salt
    (unhex "f17d2cdb17146baacbf404baf3e4857b651d74c89fec74a79fd987ca59e0442572d684f0b1951de5b2746082b6765ade05a3168606f6d3dc24423d1603c34be01b").

Definition rust_order : CanonicalOrder :=
  order_of recorded_params rust_salt
    (unhex "9456c9d3c3a06b227eb067c210fa1221de0455ace43bcd5b3404e3b24cbb1d624e5bc1775909793ad3d9749b1f1f71eebf959e6e92419fc4eb635afe44ed3b921b").

End Recorded.

(** ** Notions for the shape of signatures and secrets *)

Module Shapes.

(** A run of [n] padding characters. *)
Fixpoint equals_signs (n : nat) : string :=
  match n with
  | O => EmptyString
  | S m => String "="%char (equals_signs m)
  end.

(** The last character of a text is [ch]. *)
Fixpoint ends_with (ch : ascii) (s : string) : bool :=
  match s with
  | EmptyString => false
  | String c EmptyString => Ascii.eqb c ch
  | String _ rest => ends_with ch rest
  end.

(** The characters of a URL-safe signature other than the padding: letters,
    digits, [-] and [_]. *)
Definition signature_char (c : ascii) : bool :=
  let n := N_of_ascii c in
  ((65 <=? n) && (n <=? 90) || (97 <=? n) && (n <=? 122)
   || (48 <=? n) && (n <=? 57) || (n =? 45) || (n =? 95))%N.

(** [ch in s]. *)
Definition has_char (ch : ascii) (s : string) : bool :=
  existsb (Ascii.eqb ch) (list_ascii_of_string s).

(** The URL-safe character of a sextet is a signature character. *)
Definition sextet_text_ok (v : Z) : bool :=
  signature_char
    (ascii_of_byte (Base64.urlsafe_encode_translation (Base64.b2a v))).

(** A text of ASCII characters only. *)
Definition is_ascii_text (s : string) : bool :=
  forallb (fun c => (N_of_ascii c <? 128)%N) (list_ascii_of_string s).

End Shapes.

(** * Properties *)

(** ** The library models on published test vectors *)

Module Vectors.
Import Py.

(** FIPS 180-4, section 4.2.2 and 5.3.3: first and last round constant,
    first and last word of the initial hash value. *)
Example sha256_constants :
  (nth 0 SHA256.K 0 = 0x428a2f98 /\ nth 63 SHA256.K 0 = 0xc67178f2 /\
   nth 0 SHA256.H0 0 = 0x6a09e667 /\ nth 7 SHA256.H0 0 = 0x5be0cd19)%Z.
Proof. repeat split. Qed.

(** FIPS 180-4 example messages: one block, and two blocks. *)
Example sha256_abc :
  Text.hex (SHA256.sha256 (str_encode "abc"))
  = "ba7816bf8f01cfea414140de5dae2223b00361a396177a9cb410ff61f20015ad".
Proof. vm_compute. reflexivity. Qed.

Example sha256_two_blocks :
  Text.hex (SHA256.sha256
              (str_encode "abcdbcdecdefdefgefghfghighijhijkijkljklmklmnlmnomnopnopq"))
  = "248d6a61d20638b8e5c026930c3e6039a33ce45964ff2167f6ecedd419db06c1".
Proof. vm_compute. reflexivity. Qed.

(** RFC 4231, test case 2. *)
Example hmac_sha256_rfc4231 :
  Text.hex (HMAC.hmac_sha256 (str_encode "Jefe") (str_encode "what do ya want for nothing?"))
  = "5bdcc146bf60754e6a042426089575c75a003f089d2739839dec58b964ec3843".
Proof. vm_compute. reflexivity. Qed.

(** RFC 4648, section 10. *)
Example base64_rfc4648 :
  map (fun s => bytes_decode (Base64.urlsafe_b64encode (str_encode s)))
      ["f"; "fo"; "foo"; "foob"; "fooba"; "foobar"]
  = ["Zg=="; "Zm8="; "Zm9v"; "Zm9vYg=="; "Zm9vYmE="; "Zm9vYmFy"]
  /\ map Base64.urlsafe_b64decode ["Zg=="; "Zm8="; "Zm9v"; "Zm9vYmE="]
     = map (fun s => Ok (str_encode s)) ["f"; "fo"; "foo"; "fooba"].
Proof. split; vm_compute; reflexivity. Qed.

End Vectors.

(** ** The request signature of test_hmac.py *)

Module TestHmacFacts.
Import Py TestHmac.

Lemma append_cons (x : ascii) (a b : string) :
  String x a +:+ b = String x (a +:+ b).
Proof. reflexivity. Qed.

Lemma append_assoc (a b c : string) : (a +:+ b) +:+ c = a +:+ b +:+ c.
Proof.
  induction a as [|x a IH]; [reflexivity|].
  rewrite !append_cons. now f_equal.
Qed.

Lemma append_nil_r (a : string) : a +:+ "" = a.
Proof.
  induction a as [|x a IH]; [reflexivity|].
  rewrite append_cons. now f_equal.
Qed.

Lemma replace_length old new s :
  String.length (replace old new s) = String.length s.
Proof. induction s as [|c s IH]; simpl; [reflexivity | now rewrite IH]. Qed.

(** Character by character, [replace] swaps [old] for [new] and keeps the
    rest. *)
Lemma replace_get old new s i :
  String.get i (replace old new s)
  = option_map (fun c => if Ascii.eqb c old then new else c) (String.get i s).
Proof.
  revert i; induction s as [|c s IH]; intros i; simpl; [reflexivity|].
  destruct i; simpl; [reflexivity | apply IH].
Qed.

Lemma replace_idempotent old new s :
  old <> new -> replace old new (replace old new s) = replace old new s.
Proof.
  intros Hne; induction s as [|c s IH]; simpl; [reflexivity|].
  rewrite IH; f_equal.
  destruct (Ascii.eqb_spec c old) as [->|Hc].
  - destruct (Ascii.eqb_spec new old); congruence.
  - destruct (Ascii.eqb_spec c old); congruence.
Qed.

Lemma truthy_replace old new s : truthy (replace old new s) = truthy s.
Proof. destruct s; reflexivity. Qed.

Lemma truthy_empty s : truthy s = false <-> s = "".
Proof. destruct s; simpl; split; congruence. Qed.

(** [str] of an integer is a decimal numeral of that integer: reading it
    back gives the integer. *)
Lemma str_of_int_decimal z :
  option_map Z.of_int (NilZero.int_of_string (str_of_int z)) = Some z.
Proof.
  unfold str_of_int.
  rewrite NilZero.isi.
  - simpl. now rewrite DecimalZ.of_to.
  - destruct z; simpl; try discriminate.
    intros [= H]. now apply (DecimalPos.Unsigned.to_uint_nonnil p).
  - destruct z; simpl; try discriminate.
    intros [= H]. now apply (DecimalPos.Unsigned.to_uint_nonnil p).
Qed.

(** C1. The authenticated message is the decimal string of the timestamp,
    then the method, then the path; a non-empty body is appended with each
    single quote turned into a double quote (same length, every other
    character kept), and an empty body appends nothing. *)
Theorem hmac_message_construction :
  forall (timestamp : pyval) (method request_path body : string),
    (exists tail : string,
        hmac_message timestamp method request_path body
        = str timestamp +:+ method +:+ request_path +:+ tail
        /\ String.length tail = String.length body
        /\ forall i,
            String.get i tail
            = option_map
                (fun c => if Ascii.eqb c single_quote then double_quote else c)
                (String.get i body))
    /\ hmac_message timestamp method request_path ""
       = str timestamp +:+ method +:+ request_path
    /\ (forall z : Z,
           option_map Z.of_int (NilZero.int_of_string (str (PyInt z))) = Some z)
    /\ (forall s : string, str (PyStr s) = s).
Proof.
  intros timestamp method request_path body.
  split; [|split; [reflexivity | split; [apply str_of_int_decimal | reflexivity]]].
  unfold hmac_message.
  destruct body as [|c body].
  - exists "". cbn [truthy].
    split; [now rewrite !append_nil_r | split; [reflexivity | now intros i]].
  - exists (replace single_quote double_quote (String c body)).
    cbn [truthy].
    split; [now rewrite !append_assoc | split].
    + apply replace_length.
    + intros i. apply replace_get.
Qed.

(** C2. On the fixture of the script (secret, timestamp, method, path and
    order body), the signature with its trailing [=] stripped is the
    signature the Rust client logged. *)
Theorem hmac_reference_vector :
  exists sig : string,
    build_hmac_signature_python_client SECRET_BASE64 TIMESTAMP METHOD PATH BODY
    = Ok sig
    /\ rstrip "="%char sig = "fPOEaxvya1QbVkoRPNrv-kxPjv16Ni_mxrqMgCzm-hc"
    /\ rstrip "="%char "fPOEaxvya1QbVkoRPNrv-kxPjv16Ni_mxrqMgCzm-hc"
       = "fPOEaxvya1QbVkoRPNrv-kxPjv16Ni_mxrqMgCzm-hc"
    /\ main = Ok (sig, true).
Proof.
  exists "fPOEaxvya1QbVkoRPNrv-kxPjv16Ni_mxrqMgCzm-hc=".
  repeat split; vm_compute; reflexivity.
Qed.

Lemma single_double_distinct : single_quote <> double_quote.
Proof. discriminate. Qed.

Lemma hmac_message_normalized timestamp method request_path body :
  hmac_message timestamp method request_path
               (replace single_quote double_quote body)
  = hmac_message timestamp method request_path body.
Proof.
  unfold hmac_message.
  rewrite truthy_replace, replace_idempotent by apply single_double_distinct.
  reflexivity.
Qed.

(** C7. Signing a body and signing the same body with its single quotes
    already turned into double quotes give the same result: the substitution
    done twice is the substitution done once. *)
Theorem build_hmac_signature_quote_normalization :
  forall (secret : string) (timestamp : pyval)
         (method request_path body : string),
    build_hmac_signature_python_client secret timestamp method request_path body
    = build_hmac_signature_python_client secret timestamp method request_path
        (replace single_quote double_quote body)
    /\ replace single_quote double_quote (replace single_quote double_quote body)
       = replace single_quote double_quote body.
Proof.
  intros secret timestamp method request_path body. split.
  - unfold build_hmac_signature_python_client.
    now rewrite hmac_message_normalized.
  - apply replace_idempotent, single_double_distinct.
Qed.

End TestHmacFacts.

(** ** Decoding the secret *)

Module Base64Facts.
Import Py Base64.





Lemma list_ascii_of_string_app s1 s2 :
  list_ascii_of_string (s1 +:+ s2)
  = (list_ascii_of_string s1 ++ list_ascii_of_string s2)%list.
Proof.
  induction s1 as [|c s1 IH]; [reflexivity|].
  change (String c s1 +:+ s2) with (String c (s1 +:+ s2)).
  cbn [list_ascii_of_string app]. now rewrite IH.
Qed.

Lemma length_list_ascii_of_string s :
  length (list_ascii_of_string s) = String.length s.
Proof. induction s as [|c s IH]; simpl; [reflexivity | now rewrite IH]. Qed.


End Base64Facts.

(** ** Encoding and decoding back *)

Module Base64Roundtrip.
Import Py Base64.
Local Open Scope list_scope.
Local Open Scope Z_scope.

Lemma code_range (b : byte) : 0 <= code b < 256.
Proof.
  unfold code. pose proof (Byte.to_N_bounded b). lia.
Qed.

Lemma byte_of_code (b : byte) : byte_of (code b) = b.
Proof. unfold byte_of, code. now rewrite N2Z.id, Byte.of_to_N. Qed.

Lemma land_shiftl_low a b k : 0 <= k -> 0 <= b < 2 ^ k -> Z.land (Z.shiftl a k) b = 0.
Proof.
  intros Hk Hb. apply Z.bits_inj'. intros n Hn.
  rewrite Z.land_spec, Z.bits_0.
  destruct (Z.lt_ge_cases n k) as [Hlt|Hge].
  - now rewrite Z.shiftl_spec_low.
  - destruct (Z.eq_dec b 0) as [->|Hb0].
    + now rewrite Z.bits_0, andb_false_r.
    + rewrite (Z.bits_above_log2 b n); [now rewrite andb_false_r | lia |].
      assert (Z.log2 b < k) by (apply Z.log2_lt_pow2; lia). lia.
Qed.

Lemma lor_shiftl_low a b k :
  0 <= k -> 0 <= b < 2 ^ k -> Z.lor (Z.shiftl a k) b = a * 2 ^ k + b.
Proof.
  intros Hk Hb. pose proof (Z.add_lor_land (Z.shiftl a k) b) as H.
  rewrite land_shiftl_low in H by assumption.
  rewrite <- Z.shiftl_mul_pow2 by assumption. lia.
Qed.

Ltac to_arith :=
  change 63 with (Z.ones 6); change 15 with (Z.ones 4); change 3 with (Z.ones 2);
  rewrite ?Z.land_ones by lia;
  rewrite ?Z.shiftr_div_pow2 by lia.

Lemma group3 (x y z : byte) :
  let n := (code x * 256 + code y) * 256 + code z in
  let v1 := Z.shiftr n 18 in
  let v2 := Z.land (Z.shiftr n 12) 63 in
  let v3 := Z.land (Z.shiftr n 6) 63 in
  let v4 := Z.land n 63 in
  (0 <= v1 < 64 /\ 0 <= v2 < 64 /\ 0 <= v3 < 64 /\ 0 <= v4 < 64)
  /\ Z.lor (Z.shiftl v1 2) (Z.shiftr v2 4) = code x
  /\ Z.lor (Z.shiftl (Z.land v2 15) 4) (Z.shiftr v3 2) = code y
  /\ Z.lor (Z.shiftl (Z.land v3 3) 6) v4 = code z.
Proof.
  intros n v1 v2 v3 v4.
  pose proof (code_range x); pose proof (code_range y); pose proof (code_range z).
  assert (Hv1 : v1 = code x / 4).
  { subst v1 n. rewrite Z.shiftr_div_pow2 by lia. change (2 ^ 18) with 262144.
    Z.div_mod_to_equations. lia. }
  assert (Hv2 : v2 = 16 * (code x mod 4) + code y / 16).
  { subst v2 n. change 63 with (Z.ones 6). rewrite Z.land_ones, Z.shiftr_div_pow2 by lia.
    change (2 ^ 12) with 4096. change (2 ^ 6) with 64. Z.div_mod_to_equations. lia. }
  assert (Hv3 : v3 = 4 * (code y mod 16) + code z / 64).
  { subst v3 n. change 63 with (Z.ones 6). rewrite Z.land_ones, Z.shiftr_div_pow2 by lia.
    change (2 ^ 6) with 64. Z.div_mod_to_equations. lia. }
  assert (Hv4 : v4 = code z mod 64).
  { subst v4 n. change 63 with (Z.ones 6). rewrite Z.land_ones by lia.
    change (2 ^ 6) with 64. Z.div_mod_to_equations. lia. }
  clearbody v1 v2 v3 v4. subst v1 v2 v3 v4.
  split; [repeat split; Z.div_mod_to_equations; lia|].
  change 15 with (Z.ones 4). change 3 with (Z.ones 2).
  rewrite !Z.land_ones, !Z.shiftr_div_pow2 by lia.
  rewrite !lor_shiftl_low; try lia.
  - change (2 ^ 2) with 4. change (2 ^ 4) with 16. change (2 ^ 6) with 64.
    repeat split; Z.div_mod_to_equations; lia.
  - change (2 ^ 6) with 64. Z.div_mod_to_equations; lia.
  - change (2 ^ 2) with 4. change (2 ^ 4) with 16. Z.div_mod_to_equations; lia.
  - change (2 ^ 2) with 4. change (2 ^ 4) with 16. Z.div_mod_to_equations; lia.
Qed.

Lemma forall_range (P : Z -> bool) (n : nat) :
  forallb P (map Z.of_nat (seq 0 n)) = true ->
  forall v, 0 <= v < Z.of_nat n -> P v = true.
Proof.
  intros H v Hv. rewrite forallb_forall in H. apply H.
  apply in_map_iff. exists (Z.to_nat v). split; [lia|].
  apply in_seq. lia.
Qed.

Lemma sextet_facts v :
  0 <= v < 64 ->
  a2b (b2a v) = Some v
  /\ Byte.eqb (b2a v) PAD = false
  /\ urlsafe_decode_translation (urlsafe_encode_translation (b2a v)) = b2a v
  /\ (N_of_ascii (ascii_of_byte (urlsafe_encode_translation (b2a v))) <? 128)%N = true.
Proof.
  intros Hv.
  assert (H : sextet_ok v = true)
    by (apply (forall_range sextet_ok 64); [vm_compute; reflexivity | exact Hv]).
  unfold sextet_ok in H. rewrite !andb_true_iff in H.
  destruct H as [[[Ha Hp] Ht] Hc].
  destruct (a2b (b2a v)) as [u|]; [|discriminate].
  apply Z.eqb_eq in Ha. subst u.
  repeat split.
  - now destruct (Byte.eqb (b2a v) PAD).
  - now apply Byte.byte_dec_bl.
  - assumption.
Qed.

Lemma list_ind3 {A} (P : list A -> Prop) :
  P [] -> (forall x, P [x]) -> (forall x y, P [x; y]) ->
  (forall x y z l, P l -> P (x :: y :: z :: l)) ->
  forall l, P l.
Proof.
  intros H0 H1 H2 H3.
  assert (H : forall l, P l /\ (forall x, P (x :: l)) /\ (forall x y, P (x :: y :: l))).
  { induction l as [|a l (IH0 & IH1 & IH2)]; [now auto|].
    repeat split; auto. }
  intros l. apply H.
Qed.

Lemma group1 (x : byte) :
  let n := code x in
  let v1 := Z.shiftr n 2 in
  let v2 := Z.shiftl (Z.land n 3) 4 in
  (0 <= v1 < 64 /\ 0 <= v2 < 64)
  /\ Z.lor (Z.shiftl v1 2) (Z.shiftr v2 4) = code x.
Proof.
  intros n v1 v2. pose proof (code_range x).
  assert (Hv1 : v1 = code x / 4).
  { subst v1 n. now rewrite Z.shiftr_div_pow2 by lia. }
  assert (Hv2 : v2 = 16 * (code x mod 4)).
  { subst v2 n. change 3 with (Z.ones 2).
    rewrite Z.land_ones, Z.shiftl_mul_pow2 by lia.
    change (2 ^ 2) with 4. change (2 ^ 4) with 16. lia. }
  clearbody v1 v2. subst v1 v2.
  split; [repeat split; Z.div_mod_to_equations; lia|].
  rewrite Z.shiftr_div_pow2 by lia.
  rewrite lor_shiftl_low; try lia.
  - change (2 ^ 2) with 4. change (2 ^ 4) with 16. Z.div_mod_to_equations; lia.
  - change (2 ^ 2) with 4. change (2 ^ 4) with 16. Z.div_mod_to_equations; lia.
Qed.

Lemma group2 (x y : byte) :
  let n := code x * 256 + code y in
  let v1 := Z.shiftr n 10 in
  let v2 := Z.land (Z.shiftr n 4) 63 in
  let v3 := Z.shiftl (Z.land n 15) 2 in
  (0 <= v1 < 64 /\ 0 <= v2 < 64 /\ 0 <= v3 < 64)
  /\ Z.lor (Z.shiftl v1 2) (Z.shiftr v2 4) = code x
  /\ Z.lor (Z.shiftl (Z.land v2 15) 4) (Z.shiftr v3 2) = code y.
Proof.
  intros n v1 v2 v3.
  pose proof (code_range x); pose proof (code_range y).
  assert (Hv1 : v1 = code x / 4).
  { subst v1 n. rewrite Z.shiftr_div_pow2 by lia. change (2 ^ 10) with 1024.
    Z.div_mod_to_equations. lia. }
  assert (Hv2 : v2 = 16 * (code x mod 4) + code y / 16).
  { subst v2 n. change 63 with (Z.ones 6). rewrite Z.land_ones, Z.shiftr_div_pow2 by lia.
    change (2 ^ 4) with 16. change (2 ^ 6) with 64. Z.div_mod_to_equations. lia. }
  assert (Hv3 : v3 = 4 * (code y mod 16)).
  { subst v3 n. change 15 with (Z.ones 4).
    rewrite Z.land_ones, Z.shiftl_mul_pow2 by lia.
    change (2 ^ 2) with 4. change (2 ^ 4) with 16. Z.div_mod_to_equations. lia. }
  clearbody v1 v2 v3. subst v1 v2 v3.
  split; [repeat split; Z.div_mod_to_equations; lia|].
  change 15 with (Z.ones 4).
  rewrite !Z.land_ones, !Z.shiftr_div_pow2 by lia.
  rewrite !lor_shiftl_low; try lia.
  - change (2 ^ 2) with 4. change (2 ^ 4) with 16.
    repeat split; Z.div_mod_to_equations; lia.
  - change (2 ^ 2) with 4. change (2 ^ 4) with 16. Z.div_mod_to_equations; lia.
  - change (2 ^ 2) with 4. change (2 ^ 4) with 16. Z.div_mod_to_equations; lia.
Qed.

Lemma a2b_loop_b2a_base64 (data : bytes) :
  forall out, a2b_loop (b2a_base64 data) 0 0 0 out = Ok (rev out ++ data).
Proof.
  induction data as [|x|x y|x y z data IH] using list_ind3; intros out.
  - cbn. now rewrite app_nil_r.
  - destruct (group1 x) as ((B1 & B2) & E1).
    cbn [b2a_base64 a2b_loop].
    destruct (sextet_facts _ B1) as (A1 & P1 & _).
    destruct (sextet_facts _ B2) as (A2 & P2 & _).
    rewrite P1, A1, P2, A2, E1, byte_of_code. reflexivity.
  - destruct (group2 x y) as ((B1 & B2 & B3) & E1 & E2).
    cbn [b2a_base64 a2b_loop].
    destruct (sextet_facts _ B1) as (A1 & P1 & _).
    destruct (sextet_facts _ B2) as (A2 & P2 & _).
    destruct (sextet_facts _ B3) as (A3 & P3 & _).
    rewrite P1, A1, P2, A2, E1, P3, A3, E2, !byte_of_code.
    cbn. now rewrite <- !app_assoc.
  - destruct (group3 x y z) as ((B1 & B2 & B3 & B4) & E1 & E2 & E3).
    cbn [b2a_base64 a2b_loop].
    destruct (sextet_facts _ B1) as (A1 & P1 & _).
    destruct (sextet_facts _ B2) as (A2 & P2 & _).
    destruct (sextet_facts _ B3) as (A3 & P3 & _).
    destruct (sextet_facts _ B4) as (A4 & P4 & _).
    rewrite P1, A1, P2, A2, E1, P3, A3, E2, P4, A4, E3, !byte_of_code.
    rewrite IH. cbn. now rewrite <- !app_assoc.
Qed.

(** Every character of the encoder is the padding character or the character
    of a sextet. *)
Lemma b2a_base64_chars (data : bytes) :
  Forall (fun c => c = PAD \/ exists v, 0 <= v < 64 /\ c = b2a v) (b2a_base64 data).
Proof.
  induction data as [|x|x y|x y z data IH] using list_ind3.
  - constructor.
  - destruct (group1 x) as ((B1 & B2) & _).
    cbn [b2a_base64].
    repeat (apply List.Forall_cons; [solve [right; eauto | now left]|]).
    constructor.
  - destruct (group2 x y) as ((B1 & B2 & B3) & _).
    cbn [b2a_base64].
    repeat (apply List.Forall_cons; [solve [right; eauto | now left]|]).
    constructor.
  - destruct (group3 x y z) as ((B1 & B2 & B3 & B4) & _).
    cbn [b2a_base64].
    repeat (apply List.Forall_cons; [solve [right; eauto]|]).
    exact IH.
Qed.

Lemma urlsafe_chars_back (data : bytes) :
  map urlsafe_decode_translation (urlsafe_b64encode data) = b2a_base64 data
  /\ forallb (fun c => (N_of_ascii c <? 128)%N)
             (map ascii_of_byte (urlsafe_b64encode data)) = true.
Proof.
  unfold urlsafe_b64encode.
  induction (b2a_base64_chars data) as [|c l Hc _ [IH1 IH2]]; [now split|].
  cbn [map forallb].
  assert (urlsafe_decode_translation (urlsafe_encode_translation c) = c
          /\ (N_of_ascii (ascii_of_byte (urlsafe_encode_translation c)) <? 128)%N = true)
    as [H1 H2].
  { destruct Hc as [->|(v & Hv & ->)]; [now split|].
    now destruct (sextet_facts v Hv) as (_ & _ & ? & ?). }
  rewrite H1, H2, IH1, IH2. now split.
Qed.

(** What the encoder writes, the decoder reads back. *)
Lemma urlsafe_b64decode_b64encode (data : bytes) :
  urlsafe_b64decode (bytes_decode (urlsafe_b64encode data)) = Ok data.
Proof.
  unfold urlsafe_b64decode, encode_ascii, bytes_decode, str_encode.
  rewrite list_ascii_of_string_of_list_ascii.
  destruct (urlsafe_chars_back data) as [Hback Hascii].
  rewrite Hascii. cbn [mbind result_bind].
  rewrite (List.map_map ascii_of_byte byte_of_ascii).
  rewrite (List.map_ext _ (fun b => b) byte_of_ascii_of_byte), List.map_id.
  rewrite Hback. unfold a2b_base64. now rewrite a2b_loop_b2a_base64.
Qed.

End Base64Roundtrip.


(** ** The comparison of compare_formats.py *)

Module CompareFormatsFacts.
Import Py CompareFormats.

Lemma eqb_eq (x y : pyval) : eqb x y = true <-> x = y.
Proof.
  destruct x as [|a|a], y as [|b|b]; simpl; split;
    try congruence; try reflexivity.
  - intros H. apply Z.eqb_eq in H. now subst.
  - intros [= ->]. apply Z.eqb_refl.
  - intros H. apply String.eqb_eq in H. now subst.
  - intros [= ->]. apply String.eqb_refl.
Qed.

Lemma eqb_refl (x : pyval) : eqb x x = true.
Proof. now apply eqb_eq. Qed.

Lemma excluded_spec k : excluded k = true <-> k = "salt" \/ k = "signature".
Proof.
  unfold excluded. cbn [existsb]. rewrite !orb_true_iff, !String.eqb_eq.
  intuition congruence.
Qed.

Ltac field_projections :=
  unfold compare_field in *;
  cbn [key py_val rust_val py_type rust_type match_ type_match] in *.

Lemma elem_of_key_set (d : dict) (k : string) : k ∈ key_set d <-> k ∈ keys d.
Proof. unfold key_set. apply elem_of_list_to_set. Qed.

(** The results of the loop are the results of its body on the keys of the
    reference. *)
Lemma elem_of_field_loop python_order rust_order r :
  r ∈ field_loop python_order rust_order <->
  exists k, k ∈ keys python_order
            /\ r = compare_field k (get python_order k) (get rust_order k).
Proof.
  unfold field_loop. rewrite list_elem_of_fmap. split.
  - intros (k & -> & Hk). eauto.
  - intros (k & Hk & ->). eauto.
Qed.

(** C10. For [salt] and [signature] the match mark is positive whatever the
    two values are, also when the types differ or the candidate has no
    value; the agreement of the types is a separate mark, which the match
    mark does not depend on. *)
Theorem excluded_fields_match_unconditionally :
  forall (k : string) (pv rv : pyval),
    k = "salt" \/ k = "signature" ->
    match_ (compare_field k pv rv) = true
    /\ type_match (compare_field k pv rv)
       = Some (String.eqb (py_type (compare_field k pv rv))
                          (rust_type (compare_field k pv rv)))
    /\ forall python_order rust_order r,
        r ∈ field_loop python_order rust_order -> key r = k ->
        match_ r = true.
Proof.
  intros k pv rv Hk. apply excluded_spec in Hk.
  field_projections. rewrite Hk, orb_true_r.
  repeat split.
  intros python_order rust_order r Hr <-.
  apply elem_of_field_loop in Hr as (k' & _ & ->).
  field_projections. now rewrite Hk, orb_true_r.
Qed.

(** A salt that the candidate lacks is matched, with the types reported as
    different; a signature that is an integer in the candidate is matched
    too. *)
Lemma excluded_fields_match_unconditionally_witness :
  match_ (compare_field "salt" (PyInt 1297788380) PyNone) = true
  /\ type_match (compare_field "salt" (PyInt 1297788380) PyNone) = Some false
  /\ match_ (compare_field "signature" (PyStr "0x00") (PyInt 0)) = true.
Proof.
  split; [|split].
  - apply (excluded_fields_match_unconditionally "salt" _ _). now left.
  - reflexivity.
  - apply (excluded_fields_match_unconditionally "signature" _ _). now right.
Defined.

(** C5, as the code has it.  For a key other than [salt] and [signature]
    the match mark is plain equality of the two values: same type and same
    text.  Two numerals match only if they are the same text, two addresses
    only if they are the same text including case, and a string never
    matches an integer. *)
Theorem field_match_is_exact_equality :
  forall (k : string) (pv rv : pyval),
    excluded k = false ->
    (match_ (compare_field k pv rv) = true <-> pv = rv)
    /\ (forall a b : string,
           pv = PyStr a -> rv = PyStr b ->
           (match_ (compare_field k pv rv) = true <-> a = b))
    /\ (forall (a : string) (n : Z),
           pv = PyStr a -> rv = PyInt n ->
           match_ (compare_field k pv rv) = false).
Proof.
  intros k pv rv Hk. field_projections. rewrite Hk, orb_false_r.
  split; [apply eqb_eq | split].
  - intros a b -> ->. rewrite eqb_eq. split; congruence.
  - intros a n -> ->. reflexivity.
Qed.

Lemma field_match_is_exact_equality_witness :
  match_ (compare_field "makerAmount" (PyStr "85000") (PyStr "85000")) = true.
Proof.
  apply (proj1 (field_match_is_exact_equality "makerAmount" (PyStr "85000")
                  (PyStr "85000") eq_refl)).
  reflexivity.
Defined.

(** Against C5 as stated: a candidate whose amount is the same number
    written with a leading zero, and whose maker address is the same address
    in lower case, fails on exactly these two fields. *)
Lemma field_match_is_textual_counterexample :
  let candidate :=
    setitem (setitem RUST_ORDER "makerAmount" (PyStr "085000"))
            "maker" (PyStr "0xefa7cd2e9bfa38f04af95df90da90b194e4ed191") in
  Text.numeric_value "085000" = Text.numeric_value "85000"
  /\ Text.numeric_value "85000" = Some 85000%Z
  /\ Text.is_address "0xefa7cd2e9bfa38f04af95df90da90b194e4ed191" = true
  /\ Text.is_address "0xeFa7Cd2E9BFa38F04Af95df90da90B194e4ed191" = true
  /\ Text.lower "0xeFa7Cd2E9BFa38F04Af95df90da90B194e4ed191"
     = Text.lower "0xefa7cd2e9bfa38f04af95df90da90b194e4ed191"
  /\ keys candidate = keys PYTHON_ORDER
  /\ map (fun r => (key r, py_val r, rust_val r, match_ r))
         (filter (fun r => negb (match_ r)) (field_loop PYTHON_ORDER candidate))
     = [ ("maker", PyStr "0xeFa7Cd2E9BFa38F04Af95df90da90B194e4ed191",
          PyStr "0xefa7cd2e9bfa38f04af95df90da90b194e4ed191", false);
         ("makerAmount", PyStr "85000", PyStr "085000", false) ].
Proof. repeat split. Qed.

(** No key is extra and none is missing exactly when the two dictionaries
    have the same keys. *)
Lemma key_check_clean python_order rust_order :
  extra_in_rust (key_check python_order rust_order) = ∅
  /\ missing_in_rust (key_check python_order rust_order) = ∅
  <-> forall k, k ∈ keys python_order <-> k ∈ keys rust_order.
Proof.
  unfold key_check; cbn [extra_in_rust missing_in_rust].
  split.
  - intros [He Hm] k. rewrite <- !elem_of_key_set.
    destruct (decide (k ∈ key_set python_order)) as [Hp|Hp],
             (decide (k ∈ key_set rust_order)) as [Hr|Hr]; try tauto.
    + exfalso. assert (k ∈ key_set python_order ∖ key_set rust_order) as Hk
        by (apply elem_of_difference; tauto).
      rewrite Hm in Hk. now apply not_elem_of_empty in Hk.
    + exfalso. assert (k ∈ key_set rust_order ∖ key_set python_order) as Hk
        by (apply elem_of_difference; tauto).
      rewrite He in Hk. now apply not_elem_of_empty in Hk.
  - intros H.
    assert (key_set python_order = key_set rust_order) as ->.
    { apply set_eq. intros k. rewrite !elem_of_key_set. apply H. }
    split; apply set_eq; intros k; rewrite elem_of_difference;
      split; [tauto | intros Hk; now apply not_elem_of_empty in Hk
             | tauto | intros Hk; now apply not_elem_of_empty in Hk].
Qed.

Lemma overallMatch_unfold reference candidate :
  overallMatch (compare reference candidate) = true <->
  (forall r, r ∈ field_loop reference candidate ->
             excluded (key r) = false -> match_ r = true)
  /\ extra_in_rust (key_check reference candidate) = ∅
  /\ missing_in_rust (key_check reference candidate) = ∅.
Proof.
  unfold compare; cbn [overallMatch].
  rewrite !andb_true_iff, !bool_decide_eq_true, forallb_forall.
  split.
  - intros [[Hf He] Hm]. split; [|tauto].
    intros r Hr Hx. apply list_elem_of_In in Hr.
    specialize (Hf r Hr). now rewrite Hx in Hf.
  - intros (Hf & He & Hm). split; [split|]; [|assumption..].
    intros r Hr. apply list_elem_of_In in Hr.
    destruct (excluded (key r)) eqn:Hx; [reflexivity | now apply Hf].
Qed.

(** The verdict in terms of the loop and of the keys. *)
Lemma overallMatch_true_iff reference candidate :
  overallMatch (compare reference candidate) = true <->
  (forall r, r ∈ field_loop reference candidate ->
             excluded (key r) = false -> match_ r = true)
  /\ (forall k, k ∈ keys reference <-> k ∈ keys candidate).
Proof. rewrite overallMatch_unfold, <- key_check_clean. tauto. Qed.

(** What a field result holds, in terms of the two records. *)
Lemma field_result_of_records reference candidate r :
  r ∈ field_loop reference candidate ->
  key r ∈ keys reference
  /\ py_val r = get reference (key r)
  /\ rust_val r = get candidate (key r)
  /\ (match_ r = true <->
      excluded (key r) = true
      \/ get reference (key r) = get candidate (key r)).
Proof.
  intros Hr. apply elem_of_field_loop in Hr as (k & Hk & ->).
  field_projections. repeat split; try assumption.
  - intros H. apply orb_true_iff in H as [H|H]; [right; now apply eqb_eq | now left].
  - intros [H|H]; apply orb_true_iff; [now right | left; now apply eqb_eq].
Qed.

(** The verdict in terms of the two records alone. *)
Lemma overallMatch_records reference candidate :
  overallMatch (compare reference candidate) = true <->
  (forall k, k ∈ keys reference -> excluded k = false ->
             get reference k = get candidate k)
  /\ (forall k, k ∈ keys reference <-> k ∈ keys candidate).
Proof.
  rewrite overallMatch_true_iff. split; intros [Hf Hk]; (split; [|exact Hk]).
  - intros k Hin Hx.
    assert (Hr : compare_field k (get reference k) (get candidate k)
                 ∈ field_loop reference candidate)
      by (apply elem_of_field_loop; eauto).
    specialize (Hf _ Hr Hx). field_projections.
    rewrite Hx, orb_false_r in Hf. now apply eqb_eq.
  - intros r Hr Hx. apply elem_of_field_loop in Hr as (k & Hin & ->).
    field_projections. rewrite (Hf k Hin Hx), eqb_refl. reflexivity.
Qed.

(** C4. The overall verdict is positive exactly when every field of the
    reference other than [salt] and [signature] has the same value in the
    candidate and the two records have the same keys.  The field results
    are those of the keys of the reference, in its order, each with the
    values of the two records, matched exactly when the key is excluded or
    the values are equal; in their terms the verdict is positive exactly
    when every field other than [salt] and [signature] matched and the two
    records have the same keys.  In particular two records with the same
    keys that agree on every value other than those of [salt] and
    [signature] get a positive verdict. *)
Theorem overallMatch_iff :
  forall reference candidate : dict,
    (overallMatch (compare reference candidate) = true <->
     (forall k, k ∈ keys reference -> excluded k = false ->
                get reference k = get candidate k)
     /\ (forall k, k ∈ keys reference <-> k ∈ keys candidate))
    /\ map key (fieldResults (compare reference candidate)) = keys reference
    /\ (forall r, r ∈ fieldResults (compare reference candidate) ->
          py_val r = get reference (key r)
          /\ rust_val r = get candidate (key r)
          /\ (match_ r = true <->
              excluded (key r) = true
              \/ get reference (key r) = get candidate (key r)))
    /\ (overallMatch (compare reference candidate) = true <->
        (forall r, r ∈ fieldResults (compare reference candidate) ->
                   excluded (key r) = false -> match_ r = true)
        /\ (forall k, k ∈ keys reference <-> k ∈ keys candidate))
    /\ ((forall k, k ∈ keys reference <-> k ∈ keys candidate) ->
        (forall k, excluded k = false -> get reference k = get candidate k) ->
        overallMatch (compare reference candidate) = true).
Proof.
  intros reference candidate.
  split; [apply overallMatch_records|].
  split.
  { unfold compare; cbn [fieldResults]. unfold field_loop.
    rewrite List.map_map. cbn [key compare_field]. apply List.map_id. }
  split.
  { intros r Hr. now apply field_result_of_records in Hr as (_ & ? & ? & ?). }
  split; [apply overallMatch_true_iff|].
  intros Hkeys Hvals. apply overallMatch_records. split; [|exact Hkeys].
  intros k _ Hx. now apply Hvals.
Qed.

(** The two recorded orders differ in salt and signature only, and the
    verdict on them is positive. *)
Lemma overallMatch_iff_witness :
  overallMatch (compare PYTHON_ORDER RUST_ORDER) = true
  /\ overallMatch
       (compare PYTHON_ORDER (setitem RUST_ORDER "makerAmount" (PyStr "85001")))
     = false.
Proof.
  split.
  - apply (proj2 (proj2 (proj2 (proj2 (overallMatch_iff PYTHON_ORDER RUST_ORDER))))).
    + intros k. reflexivity.
    + intros k Hk.
      unfold excluded in Hk. cbn [existsb] in Hk.
      rewrite !orb_false_iff in Hk. destruct Hk as (Hsalt & Hsig & _).
      unfold PYTHON_ORDER, RUST_ORDER. cbn [get].
      rewrite String.eqb_sym in Hsalt. rewrite String.eqb_sym in Hsig.
      rewrite Hsalt, Hsig. reflexivity.
  - destruct (overallMatch
                (compare PYTHON_ORDER
                   (setitem RUST_ORDER "makerAmount" (PyStr "85001")))) eqn:E;
      [|reflexivity].
    apply (proj1 (overallMatch_iff PYTHON_ORDER _)) in E as [E _].
    specialize (E "makerAmount").
    assert (Hin : "makerAmount" ∈ keys PYTHON_ORDER)
      by (apply list_elem_of_In; vm_compute; tauto).
    specialize (E Hin eq_refl). vm_compute in E. discriminate.
Defined.

(** C8. A key that only one of the two records has makes the overall
    verdict negative, whatever the fields are, and is listed: a key of the
    candidate alone as extra on the right (missing on the left), a key of
    the reference alone as missing on the right (extra on the left). *)
Theorem schema_drift_is_reported :
  forall (reference candidate : dict) (k : string),
    (k ∈ keys candidate -> k ∉ keys reference ->
     overallMatch (compare reference candidate) = false
     /\ k ∈ extraKeysRight (compare reference candidate)
     /\ k ∈ missingKeysLeft (compare reference candidate))
    /\ (k ∈ keys reference -> k ∉ keys candidate ->
        overallMatch (compare reference candidate) = false
        /\ k ∈ missingKeysRight (compare reference candidate)
        /\ k ∈ extraKeysLeft (compare reference candidate)).
Proof.
  intros reference candidate k.
  assert (Hneg : forall b : bool, (b = true -> False) -> b = false)
    by (intros []; intuition congruence).
  split; intros Hin Hout.
  - assert (Hk : k ∈ key_set candidate ∖ key_set reference)
      by (apply elem_of_difference; rewrite !elem_of_key_set; tauto).
    split; [|split; exact Hk].
    apply Hneg. intros H. apply overallMatch_true_iff in H as [_ H].
    apply Hout, H, Hin.
  - assert (Hk : k ∈ key_set reference ∖ key_set candidate)
      by (apply elem_of_difference; rewrite !elem_of_key_set; tauto).
    split; [|split; exact Hk].
    apply Hneg. intros H. apply overallMatch_true_iff in H as [_ H].
    apply Hout, H, Hin.
Qed.

(** A candidate with an [owner] key that the reference lacks. *)
Lemma schema_drift_is_reported_witness :
  let candidate := setitem RUST_ORDER "owner" (PyStr "1a846e10") in
  overallMatch (compare PYTHON_ORDER candidate) = false
  /\ "owner" ∈ extraKeysRight (compare PYTHON_ORDER candidate)
  /\ "owner" ∈ missingKeysLeft (compare PYTHON_ORDER candidate).
Proof.
  intros candidate.
  apply (proj1 (schema_drift_is_reported PYTHON_ORDER candidate "owner")).
  - apply list_elem_of_In. vm_compute. tauto.
  - rewrite list_elem_of_In. vm_compute. intuition discriminate.
Defined.

End CompareFormatsFacts.


(** ** Orders built with different salts *)

Module OrderCodecFacts.
Import Py OrderCodec.

Section Codec.

Variable known_signature_type : N -> bool.
Variable encodeForSigning : CanonicalOrder -> bytes.
Variable sign : bytes -> bytes.

(** The unsigned order carries the parameters and the salt. *)
Lemma buildOrder_fields p fresh_salt o :
  buildOrder known_signature_type p fresh_salt = inr o ->
  o = {| salt := fresh_salt;
         maker := p_maker p;
         signer := p_signer p;
         taker := p_taker p;
         tokenId := p_tokenId p;
         makerAmount := p_makerAmount p;
         takerAmount := p_takerAmount p;
         expiration := p_expiration p;
         nonce := p_nonce p;
         feeRateBps := p_feeRateBps p;
         side := p_side p;
         signatureType := p_signatureType p;
         signature := None |}.
Proof.
  unfold buildOrder. intros H.
  repeat match type of H with
         | (if ?c then _ else _) = _ => destruct c; [discriminate|]
         end.
  now injection H as <-.
Qed.

(** Signing changes the signature only. *)
Lemma attachSignature_fields o sig o' :
  attachSignature o sig = inr o' ->
  length sig = 65%nat
  /\ o' = {| salt := salt o;
             maker := maker o;
             signer := signer o;
             taker := taker o;
             tokenId := tokenId o;
             makerAmount := makerAmount o;
             takerAmount := takerAmount o;
             expiration := expiration o;
             nonce := nonce o;
             feeRateBps := feeRateBps o;
             side := side o;
             signatureType := signatureType o;
             signature := Some sig |}.
Proof.
  unfold attachSignature. intros H.
  destruct (Nat.eqb_spec (length sig) 65); [|discriminate].
  split; [assumption | now injection H as <-].
Qed.

Lemma signedOrder_transport p fresh_salt o :
  signedOrder known_signature_type encodeForSigning sign p fresh_salt = inr o ->
  exists sig,
    serializeForTransport o
    = [ ("salt", PyInt (Z.of_N fresh_salt));
        ("maker", PyStr (p_maker p));
        ("signer", PyStr (p_signer p));
        ("taker", PyStr (p_taker p));
        ("tokenId", PyStr (dec (p_tokenId p)));
        ("makerAmount", PyStr (dec (p_makerAmount p)));
        ("takerAmount", PyStr (dec (p_takerAmount p)));
        ("expiration", PyStr (dec (p_expiration p)));
        ("nonce", PyStr (dec (p_nonce p)));
        ("feeRateBps", PyStr (dec (p_feeRateBps p)));
        ("side", PyStr (p_side p));
        ("signatureType", PyInt (Z.of_N (p_signatureType p)));
        ("signature", PyStr ("0x" +:+ Text.hex sig)) ].
Proof.
  unfold signedOrder. intros H.
  destruct (buildOrder known_signature_type p fresh_salt) as [e|u] eqn:Hb;
    [discriminate|].
  apply buildOrder_fields in Hb. apply attachSignature_fields in H as [_ ->].
  subst u. eexists. reflexivity.
Qed.

(** C9. Two signed orders built from the same parameters with two salts
    have the same fields in the same order, and every field other than
    [salt] and [signature] has the same value in both; so have the two
    recorded orders. *)
Theorem orders_differ_in_salt_and_signature_only :
  (forall (p : OrderParams) (salt1 salt2 : N) (o1 o2 : CanonicalOrder),
      signedOrder known_signature_type encodeForSigning sign p salt1 = inr o1 ->
      signedOrder known_signature_type encodeForSigning sign p salt2 = inr o2 ->
      keys (serializeForTransport o1) = keys (serializeForTransport o2)
      /\ forall k, CompareFormats.excluded k = false ->
                   get (serializeForTransport o1) k
                   = get (serializeForTransport o2) k)
  /\ (keys CompareFormats.PYTHON_ORDER = keys CompareFormats.RUST_ORDER
      /\ forall k, CompareFormats.excluded k = false ->
                   get CompareFormats.PYTHON_ORDER k
                   = get CompareFormats.RUST_ORDER k).
Proof.
  assert (Hx : forall k, CompareFormats.excluded k = false ->
                         String.eqb "salt" k = false
                         /\ String.eqb "signature" k = false).
  { intros k Hk. unfold CompareFormats.excluded in Hk. cbn [existsb] in Hk.
    rewrite !orb_false_iff in Hk. destruct Hk as (Ha & Hb & _).
    now rewrite String.eqb_sym in Ha; rewrite String.eqb_sym in Hb. }
  split.
  - intros p salt1 salt2 o1 o2 H1 H2.
    apply signedOrder_transport in H1 as [sig1 ->].
    apply signedOrder_transport in H2 as [sig2 ->].
    split; [reflexivity|].
    intros k Hk. destruct (Hx k Hk) as [Ha Hb].
    cbn [get]. rewrite Ha, Hb. reflexivity.
  - split; [reflexivity|].
    intros k Hk. destruct (Hx k Hk) as [Ha Hb].
    unfold CompareFormats.PYTHON_ORDER, CompareFormats.RUST_ORDER.
    cbn [get]. rewrite Ha, Hb. reflexivity.
Qed.

End Codec.

(** The recorded parameters with the two recorded salts, three known
    signature schemes and a signer that returns 65 zero octets: the built
    orders agree with the recorded ones up to the signature, and agree with
    each other on the amount. *)
Lemma orders_differ_in_salt_and_signature_only_witness :
  let known := fun n => (n <? 3)%N in
  let enc := fun _ : CanonicalOrder => @nil byte in
  let sgn := fun _ : bytes => repeat x00 65 in
  exists o1 o2,
    signedOrder known enc sgn recorded_params python_salt = inr o1
    /\ signedOrder known enc sgn recorded_params rust_salt = inr o2
    /\ without "signature" (serializeForTransport o1)
       = without "signature" CompareFormats.PYTHON_ORDER
    /\ without "signature" (serializeForTransport o2)
       = without "signature" CompareFormats.RUST_ORDER
    /\ get (serializeForTransport o1) "makerAmount"
       = get (serializeForTransport o2) "makerAmount".
Proof.
  intros known enc sgn.
  destruct (signedOrder known enc sgn recorded_params python_salt) as [e1|o1] eqn:E1;
    [vm_compute in E1; discriminate|].
  destruct (signedOrder known enc sgn recorded_params rust_salt) as [e2|o2] eqn:E2;
    [vm_compute in E2; discriminate|].
  exists o1, o2. split; [reflexivity|]. split; [reflexivity|].
  pose proof (proj1 (orders_differ_in_salt_and_signature_only known enc sgn)
                recorded_params python_salt rust_salt o1 o2 E1 E2)
    as [_ Hv].
  vm_compute in E1. vm_compute in E2.
  injection E1 as <-. injection E2 as <-.
  split; [vm_compute; reflexivity|]. split; [vm_compute; reflexivity|].
  apply Hv. reflexivity.
Defined.

End OrderCodecFacts.

(** ** The transport representation *)

Module TransportFacts.
Import Py CompareFormats Text OrderCodec Recorded.

Lemma string_of_uint_digits (d : Decimal.uint) :
  forallb is_digit (list_ascii_of_string (NilEmpty.string_of_uint d)) = true.
Proof. induction d; cbn; auto. Qed.

Lemma string_of_uint_empty (d : Decimal.uint) :
  NilEmpty.string_of_uint d = "" -> d = Decimal.Nil.
Proof. destruct d; cbn; congruence. Qed.

(** The text of a number is a decimal numeral. *)
Lemma dec_is_decimal_string (n : N) : is_decimal_string (dec n) = true.
Proof.
  destruct n as [|p]; [reflexivity|].
  unfold dec, str_of_int. cbn [Z.of_N Z.to_int NilZero.string_of_int].
  pose proof (DecimalPos.Unsigned.to_uint_nonnil p) as Hnil.
  unfold NilZero.string_of_uint.
  destruct (Pos.to_uint p) as [|d|d|d|d|d|d|d|d|d|d] eqn:E; [congruence|..];
    unfold is_decimal_string;
    (destruct (NilEmpty.string_of_uint _) eqn:Es;
     [apply string_of_uint_empty in Es; discriminate
     | rewrite <- Es; apply string_of_uint_digits]).
Qed.

Lemma decimal_fields_of_transport (o : CanonicalOrder) :
  forall f, f ∈ decimal_string_fields ->
            is_decimal_string_value (get (serializeForTransport o) f) = true.
Proof.
  apply Forall_forall. unfold decimal_string_fields.
  repeat (apply List.Forall_cons; [apply dec_is_decimal_string|]).
  constructor.
Qed.

Lemma native_fields_of_transport (o : CanonicalOrder) :
  forall f, f ∈ native_integer_fields ->
            is_native_integer (get (serializeForTransport o) f) = true.
Proof.
  apply Forall_forall. unfold native_integer_fields.
  repeat (apply List.Forall_cons; [reflexivity|]).
  constructor.
Qed.

(** C3, as the orders are sent.  Whatever the order, the fields come in the
    declared order (the signature last, once there is one); token id,
    amounts, expiration, nonce and fee rate are decimal strings, the decimal
    numerals of their numbers; salt and signature type are native integers;
    every address is emitted as the very text it was given, from the
    parameters of the order on.  The two recorded orders are such
    representations. *)
Theorem transport_representation :
  (forall o : CanonicalOrder,
      keys (serializeForTransport o)
      = match signature o with
        | Some _ => declared_field_order
        | None => removelast declared_field_order
        end
      /\ (forall f, f ∈ decimal_string_fields ->
                    is_decimal_string_value (get (serializeForTransport o) f) = true)
      /\ (forall f, f ∈ native_integer_fields ->
                    is_native_integer (get (serializeForTransport o) f) = true)
      /\ get (serializeForTransport o) "salt" = PyInt (Z.of_N (salt o))
      /\ get (serializeForTransport o) "signatureType"
         = PyInt (Z.of_N (signatureType o))
      /\ get (serializeForTransport o) "tokenId" = PyStr (dec (tokenId o))
      /\ get (serializeForTransport o) "makerAmount" = PyStr (dec (makerAmount o))
      /\ get (serializeForTransport o) "takerAmount" = PyStr (dec (takerAmount o))
      /\ get (serializeForTransport o) "expiration" = PyStr (dec (expiration o))
      /\ get (serializeForTransport o) "nonce" = PyStr (dec (nonce o))
      /\ get (serializeForTransport o) "feeRateBps" = PyStr (dec (feeRateBps o))
      /\ get (serializeForTransport o) "maker" = PyStr (maker o)
      /\ get (serializeForTransport o) "signer" = PyStr (signer o)
      /\ get (serializeForTransport o) "taker" = PyStr (taker o))
  /\ (forall n : N,
         is_decimal_string (dec n) = true
         /\ option_map Z.of_int (NilZero.int_of_string (dec n)) = Some (Z.of_N n))
  /\ (forall (known_signature_type : N -> bool)
             (encodeForSigning : CanonicalOrder -> bytes) (sign : bytes -> bytes)
             (p : OrderParams) (fresh_salt : N) (o : CanonicalOrder),
         signedOrder known_signature_type encodeForSigning sign p fresh_salt
         = inr o ->
         get (serializeForTransport o) "maker" = PyStr (p_maker p)
         /\ get (serializeForTransport o) "signer" = PyStr (p_signer p)
         /\ get (serializeForTransport o) "taker" = PyStr (p_taker p))
  /\ serializeForTransport python_order = PYTHON_ORDER
  /\ serializeForTransport rust_order = RUST_ORDER.
Proof.
  split; [|split; [|split; [|split]]].
  - intros o.
    split; [unfold serializeForTransport; now destruct (signature o)|].
    split; [apply decimal_fields_of_transport|].
    split; [apply native_fields_of_transport|].
    repeat split.
  - intros n. split; [apply dec_is_decimal_string|].
    apply TestHmacFacts.str_of_int_decimal.
  - intros known enc sgn p fresh_salt o H.
    apply OrderCodecFacts.signedOrder_transport in H as [sig ->].
    repeat split.
  - vm_compute. reflexivity.
  - vm_compute. reflexivity.
Qed.

Lemma transport_representation_witness :
  keys RUST_ORDER = declared_field_order
  /\ is_decimal_string_value (get RUST_ORDER "tokenId") = true
  /\ is_native_integer (get RUST_ORDER "salt") = true
  /\ get RUST_ORDER "maker" = PyStr (p_maker recorded_params).
Proof.
  destruct transport_representation as (Hall & _ & _ & _ & Hrust).
  rewrite <- Hrust.
  destruct (Hall rust_order) as (Hk & Hd & Hn & _ & _ & _ & _ & _ & _ & _ & _ & Hm & _).
  split; [exact Hk|]. split; [|split; [|exact Hm]].
  - apply Hd. apply list_elem_of_In. vm_compute. tauto.
  - apply Hn. apply list_elem_of_In. vm_compute. tauto.
Defined.

(** Against C3 as stated: the salt is an integer-like field other than the
    signature type, and in both recorded orders it is a native integer, not
    a decimal string. *)
Lemma salt_is_a_native_integer_counterexample :
  "salt" ∈ integer_like_fields
  /\ "salt" <> "signatureType"
  /\ get PYTHON_ORDER "salt" = PyInt 1297788380
  /\ is_decimal_string_value (get PYTHON_ORDER "salt") = false
  /\ get RUST_ORDER "salt" = PyInt 425011855
  /\ is_decimal_string_value (get RUST_ORDER "salt") = false
  /\ serializeForTransport python_order = PYTHON_ORDER
  /\ serializeForTransport rust_order = RUST_ORDER.
Proof.
  split; [apply list_elem_of_In; vm_compute; tauto|].
  split; [discriminate|]. repeat split.
Qed.

End TransportFacts.

(** ** The shape of the signature *)

Module SignatureShape.
Import Py Base64 TestHmac Shapes.
Local Open Scope list_scope.

Lemma round_length s kw : length (SHA256.round s kw) = length s.
Proof.
  unfold SHA256.round.
  destruct s as [|a [|b [|c [|d [|e [|f [|g [|h [|i s]]]]]]]]]; reflexivity.
Qed.

Lemma rounds_length kws : forall s, length (fold_left SHA256.round kws s) = length s.
Proof.
  induction kws as [|kw kws IH]; intros s; [reflexivity|].
  cbn [fold_left]. now rewrite IH, round_length.
Qed.

Lemma compress_length h block : length (SHA256.compress h block) = length h.
Proof.
  unfold SHA256.compress.
  rewrite length_map, length_combine, rounds_length. lia.
Qed.

Lemma blocks_length blocks : forall h, length (fold_left SHA256.compress blocks h) = length h.
Proof.
  induction blocks as [|b blocks IH]; intros h; [reflexivity|].
  cbn [fold_left]. now rewrite IH, compress_length.
Qed.

Lemma be_bytes_length n x : length (SHA256.be_bytes n x) = n.
Proof. unfold SHA256.be_bytes. now rewrite length_map, length_rev, length_seq. Qed.

Lemma words_length (ws : list Z) :
  length (flat_map (SHA256.be_bytes 4) ws) = (4 * length ws)%nat.
Proof.
  induction ws as [|w ws IH]; [reflexivity|].
  cbn [flat_map]. rewrite length_app, be_bytes_length, IH. cbn [length]. lia.
Qed.

Lemma sha256_length msg : length (SHA256.sha256 msg) = 32%nat.
Proof.
  unfold SHA256.sha256. rewrite words_length, blocks_length. reflexivity.
Qed.

Lemma hmac_sha256_length key msg : length (HMAC.hmac_sha256 key msg) = 32%nat.
Proof. unfold HMAC.hmac_sha256. apply sha256_length. Qed.

Lemma b2a_base64_length (data : bytes) :
  length (b2a_base64 data) = (4 * ((length data + 2) / 3))%nat.
Proof.
  induction data as [|x|x y|x y z data IH] using Base64Roundtrip.list_ind3;
    try reflexivity.
  cbn [b2a_base64 length]. rewrite IH.
  replace (S (S (S (length data))) + 2)%nat with (length data + 2 + 1 * 3)%nat by lia.
  rewrite Nat.div_add by lia. lia.
Qed.

(** An encoding of [3n + 2] octets ends with one padding character after
    sextet characters. *)
Lemma b2a_base64_tail2 (data : bytes) :
  (length data mod 3 = 2)%nat ->
  exists body,
    b2a_base64 data = body ++ [PAD]
    /\ Forall (fun c => exists v, (0 <= v < 64)%Z /\ c = b2a v) body.
Proof.
  induction data as [|x|x y|x y z data IH] using Base64Roundtrip.list_ind3;
    intros Hlen.
  - discriminate.
  - discriminate.
  - destruct (Base64Roundtrip.group2 x y) as ((B1 & B2 & B3) & _).
    eexists [_; _; _]. split; [reflexivity|].
    repeat (apply List.Forall_cons; [eauto|]). constructor.
  - destruct (Base64Roundtrip.group3 x y z) as ((B1 & B2 & B3 & B4) & _).
    destruct IH as (body & Hbody & Hall).
    { cbn [length] in Hlen.
      replace (S (S (S (length data)))) with (length data + 1 * 3)%nat in Hlen by lia.
      now rewrite Nat.Div0.mod_add in Hlen. }
    eexists (_ :: _ :: _ :: _ :: body). split.
    + cbn [b2a_base64]. rewrite Hbody. reflexivity.
    + repeat (apply List.Forall_cons; [eauto|]). exact Hall.
Qed.

Lemma sextet_text v :
  (0 <= v < 64)%Z ->
  signature_char (ascii_of_byte (urlsafe_encode_translation (b2a v))) = true.
Proof.
  intros Hv.
  apply (Base64Roundtrip.forall_range sextet_text_ok 64); [vm_compute; reflexivity | exact Hv].
Qed.

Lemma string_of_list_ascii_snoc l c :
  string_of_list_ascii (l ++ [c]) = string_of_list_ascii l +:+ String c "".
Proof. induction l as [|x l IH]; [reflexivity|]. cbn [app string_of_list_ascii]. now rewrite IH. Qed.

Lemma rstrip_equals_signs n : rstrip "="%char (equals_signs n) = "".
Proof. induction n as [|n IH]; [reflexivity|]. cbn [equals_signs rstrip]. now rewrite IH. Qed.

(** Stripping gives back a text that does not end with the character. *)
Lemma rstrip_append t n :
  ends_with "="%char t = false -> rstrip "="%char (t +:+ equals_signs n) = t.
Proof.
  induction t as [|c t IH]; intros Ht.
  - apply rstrip_equals_signs.
  - change (String c t +:+ equals_signs n) with (String c (t +:+ equals_signs n)).
    cbn [rstrip]. destruct t as [|c' t].
    + change ("" +:+ equals_signs n) with (equals_signs n).
      rewrite rstrip_equals_signs. cbn [ends_with] in Ht. now rewrite Ht.
    + rewrite IH by exact Ht. reflexivity.
Qed.

(** What is stripped is a run of the character. *)
Lemma rstrip_spec s : exists n, s = rstrip "="%char s +:+ equals_signs n.
Proof.
  induction s as [|c s (n & IH)]; [now exists 0%nat|].
  cbn [rstrip]. destruct (rstrip "="%char s) as [|c' r] eqn:E.
  - change ("" +:+ equals_signs n) with (equals_signs n) in IH.
    destruct (Ascii.eqb_spec c "="%char) as [->|Hc].
    + exists (S n). now rewrite IH at 1.
    + exists n. now rewrite IH at 1.
  - exists n. now rewrite IH at 1.
Qed.

Lemma signature_chars_no_trailing l :
  forallb signature_char l = true ->
  ends_with "="%char (string_of_list_ascii l) = false.
Proof.
  induction l as [|c l IH]; [reflexivity|].
  cbn [forallb string_of_list_ascii]. intros H.
  apply andb_true_iff in H as [Hc Hl].
  cbn [ends_with]. destruct (string_of_list_ascii l) eqn:E.
  - destruct (Ascii.eqb_spec c "="%char) as [->|]; [discriminate | reflexivity].
  - now apply IH.
Qed.

(** X1. Whenever the signature is returned, it is 43 characters among
    letters, digits, [-] and [_], followed by exactly one [=]: a digest has
    32 octets, which leaves two octets for the last group.  Stripping [=]
    gives the 43 characters, which is why [main] strips before comparing with
    the unpadded signature of the Rust client. *)
Theorem signature_shape :
  forall (secret : string) (timestamp : pyval)
         (method request_path body sig : string),
    build_hmac_signature_python_client secret timestamp method request_path body
    = Ok sig ->
    exists text : string,
      sig = text +:+ "="
      /\ String.length text = 43%nat
      /\ forallb signature_char (list_ascii_of_string text) = true
      /\ rstrip "="%char sig = text.
Proof.
  intros secret timestamp method request_path body sig.
  unfold build_hmac_signature_python_client.
  destruct (urlsafe_b64decode secret) as [key|e]; [|discriminate].
  cbn [mbind result_bind]. intros [= <-].
  set (digest := HMAC.hmac_sha256 key _).
  assert (Hlen : length digest = 32%nat) by apply hmac_sha256_length.
  destruct (b2a_base64_tail2 digest) as (chars & Hchars & Hall);
    [now rewrite Hlen|].
  pose proof (b2a_base64_length digest) as Hl.
  rewrite Hlen, Hchars, length_app in Hl. cbn in Hl.
  set (l := map ascii_of_byte (map urlsafe_encode_translation chars)).
  assert (Hsig : bytes_decode (urlsafe_b64encode digest)
                 = string_of_list_ascii l +:+ "=").
  { unfold bytes_decode, urlsafe_b64encode. rewrite Hchars, !List.map_app.
    apply string_of_list_ascii_snoc. }
  assert (Hl_chars : forallb signature_char l = true).
  { apply forallb_forall. intros c Hc. subst l.
    apply in_map_iff in Hc as (b & <- & Hb).
    apply in_map_iff in Hb as (b0 & <- & Hb0).
    rewrite List.Forall_forall in Hall.
    destruct (Hall b0 Hb0) as (v & Hv & ->). now apply sextet_text. }
  exists (string_of_list_ascii l). rewrite Hsig.
  split; [reflexivity|]. split; [|split].
  - rewrite <- Base64Facts.length_list_ascii_of_string, list_ascii_of_string_of_list_ascii.
    subst l. rewrite !length_map. lia.
  - now rewrite list_ascii_of_string_of_list_ascii.
  - apply (rstrip_append _ 1). now apply signature_chars_no_trailing.
Qed.

Lemma signature_shape_witness :
  exists text : string,
    "fPOEaxvya1QbVkoRPNrv-kxPjv16Ni_mxrqMgCzm-hc=" = text +:+ "="
    /\ String.length text = 43%nat
    /\ forallb signature_char (list_ascii_of_string text) = true
    /\ rstrip "="%char "fPOEaxvya1QbVkoRPNrv-kxPjv16Ni_mxrqMgCzm-hc=" = text.
Proof.
  apply (signature_shape SECRET_BASE64 TIMESTAMP METHOD PATH BODY).
  vm_compute. reflexivity.
Defined.

(** X2. The comparison at the end of [main], against a text that does not
    itself end with [=], succeeds exactly for that text followed by any
    number of [=], none included. *)
Theorem padding_insensitive_comparison :
  forall t sig : string,
    ends_with "="%char t = false ->
    (String.eqb (rstrip "="%char sig) t = true
     <-> exists n, sig = t +:+ equals_signs n).
Proof.
  intros t sig Ht. rewrite String.eqb_eq. split.
  - intros <-. apply rstrip_spec.
  - intros (n & ->). now apply rstrip_append.
Qed.

Lemma padding_insensitive_comparison_witness :
  String.eqb (rstrip "="%char (RUST_SIGNATURE +:+ equals_signs 2)) RUST_SIGNATURE
  = true.
Proof.
  apply (proj2 (padding_insensitive_comparison RUST_SIGNATURE
                  (RUST_SIGNATURE +:+ equals_signs 2) eq_refl)).
  now exists 2%nat.
Defined.

End SignatureShape.

(** ** What the signed text distinguishes *)

Module RequestText.
Import Py Base64 TestHmac Shapes.

(** X3. The parts of the message are joined without a separator, so the
    signature does not tell where one part ends: characters moved from the
    end of the timestamp to the start of the method, or from the end of the
    method to the start of the path, leave the result unchanged. *)
Theorem message_has_no_field_boundaries :
  forall (secret t x method y request_path body : string),
    build_hmac_signature_python_client secret (PyStr (t +:+ x)) method
      request_path body
    = build_hmac_signature_python_client secret (PyStr t) (x +:+ method)
        request_path body
    /\ build_hmac_signature_python_client secret (PyStr t) (method +:+ y)
         request_path body
       = build_hmac_signature_python_client secret (PyStr t) method
           (y +:+ request_path) body.
Proof.
  intros. unfold build_hmac_signature_python_client, hmac_message.
  cbn [str]. now rewrite !TestHmacFacts.append_assoc.
Qed.

Lemma replace_fixed_iff old new s :
  old <> new -> (replace old new s = s <-> has_char old s = false).
Proof.
  intros Hne. unfold has_char. induction s as [|c s IH]; [easy|].
  cbn [replace list_ascii_of_string existsb].
  rewrite (Ascii.eqb_sym old c).
  destruct (Ascii.eqb_spec c old) as [->|Hc]; cbn [orb].
  - split; [intros [= H _]; congruence | discriminate].
  - rewrite <- IH. split; [now intros [= ->] | now intros ->].
Qed.

(** X4. The body is signed as it is sent exactly when it has no single
    quote; a body with a single quote is signed as a different text. *)
Theorem body_signed_verbatim_iff :
  forall (timestamp : pyval) (method request_path body : string),
    hmac_message timestamp method request_path body
    = str timestamp +:+ method +:+ request_path +:+ body
    <-> has_char single_quote body = false.
Proof.
  intros timestamp method request_path body.
  rewrite <- (replace_fixed_iff single_quote double_quote)
    by apply TestHmacFacts.single_double_distinct.
  unfold hmac_message. destruct body as [|c body].
  - cbn [truthy replace]. now rewrite !TestHmacFacts.append_nil_r.
  - cbn [truthy]. rewrite !TestHmacFacts.append_assoc.
    split.
    + intros H. now do 3 apply String.app_inj in H.
    + now intros ->.
Qed.

Lemma body_signed_verbatim_iff_witness :
  hmac_message TIMESTAMP METHOD PATH BODY
  = str TIMESTAMP +:+ METHOD +:+ PATH +:+ BODY.
Proof.
  apply (proj2 (body_signed_verbatim_iff TIMESTAMP METHOD PATH BODY)).
  vm_compute. reflexivity.
Defined.

(** The text is always the three parts followed by the body with its quotes
    replaced: an empty body is its own replacement. *)
Lemma hmac_message_tail timestamp method request_path body :
  hmac_message timestamp method request_path body
  = str timestamp +:+ method +:+ request_path
    +:+ replace single_quote double_quote body.
Proof.
  unfold hmac_message. destruct body as [|c body]; cbn [truthy replace].
  - now rewrite !TestHmacFacts.append_nil_r.
  - now rewrite !TestHmacFacts.append_assoc.
Qed.

(** X5. Two bodies give the same message, all else equal, exactly when
    they are the same text once single quotes are replaced: they differ in
    the style of their quotes at most. *)
Theorem bodies_signed_alike_iff :
  forall (timestamp : pyval) (method request_path body1 body2 : string),
    hmac_message timestamp method request_path body1
    = hmac_message timestamp method request_path body2
    <-> replace single_quote double_quote body1
        = replace single_quote double_quote body2.
Proof.
  intros timestamp method request_path body1 body2.
  rewrite !hmac_message_tail. split.
  - intros H. now do 3 apply String.app_inj in H.
  - now intros ->.
Qed.

Lemma bodies_signed_alike_iff_witness :
  hmac_message TIMESTAMP METHOD PATH "{'side':'BUY'}"
  = hmac_message TIMESTAMP METHOD PATH
      (replace single_quote double_quote "{'side':'BUY'}").
Proof.
  apply (proj2 (bodies_signed_alike_iff TIMESTAMP METHOD PATH _ _)).
  vm_compute. reflexivity.
Defined.

Lemma append_inv_tail (a b r : string) : a +:+ r = b +:+ r -> a = b.
Proof.
  intros H. apply (f_equal list_ascii_of_string) in H.
  rewrite !Base64Facts.list_ascii_of_string_app in H.
  apply app_inv_tail in H.
  rewrite <- (string_of_list_ascii_of_string a), <- (string_of_list_ascii_of_string b).
  now f_equal.
Qed.

(** X6. With the method, the path and the body fixed, two integer
    timestamps give the same message only if they are the same integer. *)
Theorem timestamp_changes_message :
  forall (z1 z2 : Z) (method request_path body : string),
    hmac_message (PyInt z1) method request_path body
    = hmac_message (PyInt z2) method request_path body
    <-> z1 = z2.
Proof.
  intros z1 z2 method request_path body. split; [|now intros ->].
  rewrite !hmac_message_tail. intros H.
  apply append_inv_tail in H.
  pose proof (TestHmacFacts.str_of_int_decimal z1) as H1.
  pose proof (TestHmacFacts.str_of_int_decimal z2) as H2.
  cbn [str] in H. rewrite H in H1. congruence.
Qed.

Lemma timestamp_changes_message_witness :
  hmac_message (PyInt 1765824355) METHOD PATH BODY
  <> hmac_message (PyInt 1765824356) METHOD PATH BODY.
Proof.
  intros H.
  apply (proj1 (timestamp_changes_message 1765824355 1765824356 METHOD PATH BODY)) in H.
  discriminate.
Defined.

End RequestText.

(** ** Secrets at the edges *)

Module SecretEdges.
Import Py Base64 TestHmac Shapes.
Local Open Scope list_scope.


(** Once padding has completed a group, the loop returns without looking at
    what follows. *)
Lemma a2b_loop_stops_at_padding (data junk : bytes) :
  (length data mod 3 <> 0)%nat ->
  forall out,
    a2b_loop (b2a_base64 data ++ junk) 0 0 0 out = Ok (rev out ++ data).
Proof.
  induction data as [|x|x y|x y z data IH] using Base64Roundtrip.list_ind3;
    intros Hlen out.
  - now contradiction Hlen.
  - destruct (Base64Roundtrip.group1 x) as ((B1 & B2) & E1).
    cbn [b2a_base64 a2b_loop app].
    destruct (Base64Roundtrip.sextet_facts _ B1) as (A1 & P1 & _).
    destruct (Base64Roundtrip.sextet_facts _ B2) as (A2 & P2 & _).
    rewrite P1, A1, P2, A2, E1, Base64Roundtrip.byte_of_code. reflexivity.
  - destruct (Base64Roundtrip.group2 x y) as ((B1 & B2 & B3) & E1 & E2).
    cbn [b2a_base64 a2b_loop app].
    destruct (Base64Roundtrip.sextet_facts _ B1) as (A1 & P1 & _).
    destruct (Base64Roundtrip.sextet_facts _ B2) as (A2 & P2 & _).
    destruct (Base64Roundtrip.sextet_facts _ B3) as (A3 & P3 & _).
    rewrite P1, A1, P2, A2, E1, P3, A3, E2, !Base64Roundtrip.byte_of_code.
    cbn. now rewrite <- !app_assoc.
  - destruct (Base64Roundtrip.group3 x y z) as ((B1 & B2 & B3 & B4) & E1 & E2 & E3).
    cbn [b2a_base64 a2b_loop app].
    destruct (Base64Roundtrip.sextet_facts _ B1) as (A1 & P1 & _).
    destruct (Base64Roundtrip.sextet_facts _ B2) as (A2 & P2 & _).
    destruct (Base64Roundtrip.sextet_facts _ B3) as (A3 & P3 & _).
    destruct (Base64Roundtrip.sextet_facts _ B4) as (A4 & P4 & _).
    rewrite P1, A1, P2, A2, E1, P3, A3, E2, P4, A4, E3, !Base64Roundtrip.byte_of_code.
    rewrite IH.
    + cbn. now rewrite <- !app_assoc.
    + cbn [length] in Hlen.
      replace (S (S (S (length data)))) with (length data + 1 * 3)%nat in Hlen by lia.
      now rewrite Nat.Div0.mod_add in Hlen.
Qed.

Lemma urlsafe_b64decode_ignores_tail (data : bytes) (junk : string) :
  (length data mod 3 <> 0)%nat ->
  is_ascii_text junk = true ->
  urlsafe_b64decode (bytes_decode (urlsafe_b64encode data) +:+ junk) = Ok data.
Proof.
  intros Hlen Hjunk.
  unfold urlsafe_b64decode, encode_ascii, bytes_decode, str_encode.
  rewrite Base64Facts.list_ascii_of_string_app,
    list_ascii_of_string_of_list_ascii, forallb_app.
  destruct (Base64Roundtrip.urlsafe_chars_back data) as [Hback Hascii].
  unfold is_ascii_text in Hjunk. rewrite Hascii, Hjunk.
  cbn [andb mbind result_bind].
  rewrite !List.map_app, (List.map_map ascii_of_byte byte_of_ascii).
  rewrite (List.map_ext _ (fun b => b) byte_of_ascii_of_byte), List.map_id.
  rewrite Hback. unfold a2b_base64.
  now rewrite a2b_loop_stops_at_padding.
Qed.

(** X7. When the encoding of the key ends with padding (its length is not
    a multiple of three), whatever ASCII text follows the secret is not
    read: the result is that of the secret alone. *)
Theorem text_after_padding_is_ignored :
  forall (data : bytes) (junk : string) (timestamp : pyval)
         (method request_path body : string),
    (length data mod 3 <> 0)%nat ->
    is_ascii_text junk = true ->
    build_hmac_signature_python_client
      (bytes_decode (urlsafe_b64encode data) +:+ junk)
      timestamp method request_path body
    = build_hmac_signature_python_client
        (bytes_decode (urlsafe_b64encode data))
        timestamp method request_path body.
Proof.
  intros data junk timestamp method request_path body Hlen Hjunk.
  unfold build_hmac_signature_python_client.
  rewrite (urlsafe_b64decode_ignores_tail data junk Hlen Hjunk).
  now rewrite Base64Roundtrip.urlsafe_b64decode_b64encode.
Qed.

Lemma text_after_padding_is_ignored_witness :
  build_hmac_signature_python_client
    (bytes_decode (urlsafe_b64encode (str_encode "0123456789abcdef"))
     +:+ "not-a-secret")
    TIMESTAMP METHOD PATH BODY
  = build_hmac_signature_python_client
      (bytes_decode (urlsafe_b64encode (str_encode "0123456789abcdef")))
      TIMESTAMP METHOD PATH BODY.
Proof.
  apply text_after_padding_is_ignored.
  - vm_compute. discriminate.
  - vm_compute. reflexivity.
Defined.

(** At the start of a group every character without a value is passed
    over, the padding character included. *)
Lemma a2b_loop_no_alphabet (data : bytes) :
  Forall (fun b => a2b b = None) data ->
  forall leftchar pad_count out,
    a2b_loop data 0 leftchar pad_count out = Ok (rev out).
Proof.
  induction 1 as [|b data Hb _ IH]; intros lc pc out; [reflexivity|].
  cbn [a2b_loop]. rewrite Hb.
  destruct (Byte.eqb b PAD); cbn; apply IH.
Qed.

(** X8. A secret of ASCII characters none of which is in the alphabet (the
    empty secret, blanks, padding characters alone) raises nothing: it
    decodes to the empty key, and the request is signed with that key. *)
Theorem secret_without_alphabet_is_empty_key :
  forall (secret : string) (timestamp : pyval)
         (method request_path body : string),
    is_ascii_text secret = true ->
    forallb (fun c => negb (urlsafe_char c)) (list_ascii_of_string secret) = true ->
    urlsafe_b64decode secret = Ok []
    /\ build_hmac_signature_python_client secret timestamp method request_path body
       = build_hmac_signature_python_client "" timestamp method request_path body
    /\ is_Ok (build_hmac_signature_python_client secret timestamp method
                request_path body) = true.
Proof.
  intros secret timestamp method request_path body Hascii Hnone.
  assert (Hdec : urlsafe_b64decode secret = Ok []).
  { unfold urlsafe_b64decode, encode_ascii. unfold is_ascii_text in Hascii.
    rewrite Hascii. cbn [mbind result_bind]. unfold a2b_base64, str_encode.
    apply (a2b_loop_no_alphabet _) with (out := []).
    rewrite List.Forall_forall. intros b Hb.
    apply in_map_iff in Hb as (b0 & <- & Hb0).
    apply in_map_iff in Hb0 as (c & <- & Hc).
    rewrite forallb_forall in Hnone. specialize (Hnone c Hc).
    unfold urlsafe_char in Hnone.
    now destruct (a2b (urlsafe_decode_translation (byte_of_ascii c))). }
  split; [exact Hdec|].
  unfold build_hmac_signature_python_client. rewrite Hdec.
  split; reflexivity.
Qed.

Lemma secret_without_alphabet_is_empty_key_witness :
  urlsafe_b64decode " =!?" = Ok []
  /\ build_hmac_signature_python_client " =!?" TIMESTAMP METHOD PATH BODY
     = build_hmac_signature_python_client "" TIMESTAMP METHOD PATH BODY
  /\ is_Ok (build_hmac_signature_python_client " =!?" TIMESTAMP METHOD PATH BODY)
     = true.
Proof.
  apply secret_without_alphabet_is_empty_key; vm_compute; reflexivity.
Defined.

End SecretEdges.

(** ** What decoding the secret accepts and refuses *)

Module SecretDecoding.
Import Py Base64 Base64Facts.






End SecretDecoding.

(** ** What the comparison reports *)

Module ComparisonCoverage.
Import Py CompareFormats CompareFormatsFacts.

Lemma get_absent (d : dict) (k : string) : k ∉ keys d -> get d k = PyNone.
Proof.
  induction d as [|[k' v] d IH]; [reflexivity|].
  cbn [keys map fst get]. intros Hk.
  apply not_elem_of_cons in Hk as [Hne Hk].
  destruct (String.eqb_spec k' k) as [->|_]; [congruence | now apply IH].
Qed.

Lemma type_name_not_missing (v : pyval) : String.eqb (type_name v) "MISSING" = false.
Proof. now destruct v. Qed.

Lemma keys_field_loop python_order rust_order :
  map key (field_loop python_order rust_order) = keys python_order.
Proof.
  unfold field_loop. rewrite List.map_map. cbn [key compare_field].
  apply List.map_id.
Qed.

(** X9. The loop gives one result per key of the reference, in its order;
    a key of the candidate either has a result or is listed as extra, and
    never both. *)
Theorem every_key_is_reported :
  forall (python_order rust_order : dict),
    map key (field_loop python_order rust_order) = keys python_order
    /\ (forall k, k ∈ keys rust_order ->
          (exists r, r ∈ field_loop python_order rust_order /\ key r = k)
          \/ k ∈ extra_in_rust (key_check python_order rust_order))
    /\ (forall k r, r ∈ field_loop python_order rust_order -> key r = k ->
          k ∉ extra_in_rust (key_check python_order rust_order)).
Proof.
  intros python_order rust_order.
  split; [apply keys_field_loop|]. split.
  - intros k Hk.
    destruct (decide (k ∈ keys python_order)) as [Hp|Hp].
    + left. eexists. split; [apply elem_of_field_loop; eauto | reflexivity].
    + right. unfold key_check; cbn [extra_in_rust].
      apply elem_of_difference. now rewrite !elem_of_key_set.
  - intros k r Hr <-. apply elem_of_field_loop in Hr as (k & Hk & ->).
    unfold key_check; cbn [extra_in_rust key compare_field].
    rewrite elem_of_difference, !elem_of_key_set. tauto.
Qed.

Lemma every_key_is_reported_witness :
  "owner" ∈ extra_in_rust
              (key_check PYTHON_ORDER (setitem RUST_ORDER "owner" (PyStr "1a846e10"))).
Proof.
  destruct (proj1 (proj2 (every_key_is_reported PYTHON_ORDER
                            (setitem RUST_ORDER "owner" (PyStr "1a846e10"))))
              "owner") as [(r & Hr & Hk)|H].
  - apply list_elem_of_In. vm_compute. tauto.
  - exfalso. apply elem_of_field_loop in Hr as (k & Hin & ->).
    cbn [key compare_field] in Hk. subst k.
    apply list_elem_of_In in Hin. vm_compute in Hin. intuition discriminate.
  - exact H.
Defined.

(** X10. The keys are reported as the same exactly when no key is
    reported as extra and none as missing. *)
Theorem same_keys_iff_nothing_extra_or_missing :
  forall (python_order rust_order : dict),
    same_keys (key_check python_order rust_order) = true
    <-> extra_in_rust (key_check python_order rust_order) = ∅
        /\ missing_in_rust (key_check python_order rust_order) = ∅.
Proof.
  intros python_order rust_order. rewrite key_check_clean.
  unfold key_check; cbn [same_keys]. rewrite bool_decide_eq_true.
  split.
  - intros H k. rewrite <- !elem_of_key_set. now rewrite H.
  - intros H. apply set_eq. intros k. rewrite !elem_of_key_set. symmetry. apply H.
Qed.

Lemma same_keys_iff_nothing_extra_or_missing_witness :
  extra_in_rust (key_check PYTHON_ORDER RUST_ORDER) = ∅
  /\ missing_in_rust (key_check PYTHON_ORDER RUST_ORDER) = ∅.
Proof.
  apply (proj1 (same_keys_iff_nothing_extra_or_missing PYTHON_ORDER RUST_ORDER)).
  vm_compute. reflexivity.
Defined.

(** X11. For a key of the reference that the candidate lacks, the value is
    [None] and the type [MISSING], the key is listed as missing and the keys
    are not the same; for [salt] and [signature] the field still matches but
    the types are reported as different, for any other key with a value in
    the reference the field does not match. *)
Theorem missing_key_report :
  forall (python_order rust_order : dict) (r : field_result),
    r ∈ field_loop python_order rust_order ->
    key r ∉ keys rust_order ->
    rust_val r = PyNone
    /\ rust_type r = "MISSING"
    /\ key r ∈ missing_in_rust (key_check python_order rust_order)
    /\ same_keys (key_check python_order rust_order) = false
    /\ (excluded (key r) = true ->
        (match_ r = true /\ type_match r = Some false))
    /\ (excluded (key r) = false -> py_val r <> PyNone -> match_ r = false).
Proof.
  intros python_order rust_order r Hr Hk.
  apply elem_of_field_loop in Hr as (k & Hp & ->).
  cbn [key compare_field] in Hk.
  unfold compare_field;
    cbn [key py_val rust_val py_type rust_type match_ type_match].
  rewrite (get_absent rust_order k Hk).
  split; [reflexivity|]. split; [reflexivity|]. split; [|split; [|split]].
  - unfold key_check; cbn [missing_in_rust].
    apply elem_of_difference. now rewrite !elem_of_key_set.
  - unfold key_check; cbn [same_keys]. apply bool_decide_eq_false.
    intros H. apply Hk. rewrite <- elem_of_key_set, H. now apply elem_of_key_set.
  - intros ->. rewrite orb_true_r, type_name_not_missing. now split.
  - intros -> Hv. rewrite orb_false_r. now destruct (get python_order k).
Qed.

Lemma missing_key_report_witness :
  let candidate := OrderCodec.without "nonce" RUST_ORDER in
  let r := compare_field "nonce" (PyStr "0") PyNone in
  rust_type r = "MISSING"
  /\ key r ∈ missing_in_rust (key_check PYTHON_ORDER candidate)
  /\ match_ r = false.
Proof.
  intros candidate r.
  assert (Hr : r ∈ field_loop PYTHON_ORDER candidate).
  { apply elem_of_field_loop. exists "nonce". split; [|reflexivity].
    apply list_elem_of_In. vm_compute. tauto. }
  assert (Hk : key r ∉ keys candidate).
  { rewrite list_elem_of_In. vm_compute. intuition discriminate. }
  destruct (missing_key_report PYTHON_ORDER candidate r Hr Hk)
    as (_ & Ht & Hm & _ & _ & Hf).
  split; [exact Ht|]. split; [exact Hm|].
  apply Hf; [reflexivity | discriminate].
Defined.

(** X12. A key that the candidate has with the value [None] is reported
    with the type [MISSING] as if it were absent, although it is not listed
    as missing; its type mark is never positive. *)
Theorem none_value_reported_as_missing :
  forall (python_order rust_order : dict) (r : field_result),
    r ∈ field_loop python_order rust_order ->
    key r ∈ keys rust_order ->
    rust_val r = PyNone ->
    rust_type r = "MISSING"
    /\ (key r ∉ missing_in_rust (key_check python_order rust_order))
    /\ type_match r <> Some true.
Proof.
  intros python_order rust_order r Hr Hk Hv.
  apply elem_of_field_loop in Hr as (k & Hp & ->).
  unfold compare_field in *;
    cbn [key py_val rust_val py_type rust_type match_ type_match] in *.
  rewrite Hv. split; [reflexivity|]. split.
  - unfold key_check; cbn [missing_in_rust].
    rewrite elem_of_difference, !elem_of_key_set. tauto.
  - rewrite type_name_not_missing. now destruct (excluded k).
Qed.

Lemma none_value_reported_as_missing_witness :
  let candidate := setitem RUST_ORDER "nonce" PyNone in
  let r := compare_field "nonce" (PyStr "0") PyNone in
  rust_type r = "MISSING"
  /\ key r ∉ missing_in_rust (key_check PYTHON_ORDER candidate).
Proof.
  intros candidate r.
  assert (Hr : r ∈ field_loop PYTHON_ORDER candidate).
  { apply elem_of_field_loop. exists "nonce". split; [|reflexivity].
    apply list_elem_of_In. vm_compute. tauto. }
  assert (Hk : key r ∈ keys candidate).
  { apply list_elem_of_In. vm_compute. tauto. }
  destruct (none_value_reported_as_missing PYTHON_ORDER candidate r Hr Hk eq_refl)
    as (Ht & Hm & _).
  now split.
Defined.

(** X13. A record compared with itself matches on every field, has no
    extra and no missing key, and the keys are the same. *)
Theorem self_comparison :
  forall (d : dict),
    (forall r, r ∈ field_loop d d -> match_ r = true)
    /\ extra_in_rust (key_check d d) = ∅
    /\ missing_in_rust (key_check d d) = ∅
    /\ same_keys (key_check d d) = true.
Proof.
  intros d. split.
  - intros r Hr. apply elem_of_field_loop in Hr as (k & _ & ->).
    cbn [match_ compare_field]. now rewrite eqb_refl.
  - assert (H : extra_in_rust (key_check d d) = ∅
                /\ missing_in_rust (key_check d d) = ∅)
      by now apply key_check_clean.
    split; [apply H | split; [apply H|]].
    unfold key_check; cbn [same_keys]. now apply bool_decide_eq_true.
Qed.

Lemma self_comparison_witness :
  match_ (compare_field "maker" (get PYTHON_ORDER "maker") (get PYTHON_ORDER "maker"))
  = true.
Proof.
  apply (proj1 (self_comparison PYTHON_ORDER)).
  apply elem_of_field_loop. exists "maker". split; [|reflexivity].
  apply list_elem_of_In. vm_compute. tauto.
Defined.

Lemma get_permutation (d d' : dict) (k : string) :
  Permutation d d' -> NoDup (keys d) -> get d k = get d' k.
Proof.
  induction 1 as [|[k1 v1] d d' Hp IH|[k1 v1] [k2 v2] d|d1 d2 d3 H12 IH12 H23 IH23];
    intros Hnd.
  - reflexivity.
  - cbn [get]. destruct (String.eqb k1 k); [reflexivity|].
    apply IH. cbn [keys map fst] in Hnd. now apply NoDup_cons_1_2 in Hnd.
  - cbn [get].
    destruct (String.eqb_spec k1 k) as [->|], (String.eqb_spec k2 k) as [->|];
      try reflexivity.
    cbn [keys map fst] in Hnd. apply NoDup_cons_1_1 in Hnd.
    exfalso. apply Hnd. now left.
  - rewrite IH12 by assumption. apply IH23.
    unfold keys in *. now rewrite <- H12.
Qed.

(** X14. The order of the fields of the candidate has no effect: a
    candidate with the same entries in another order gives the same field
    results and the same report on the keys. *)
Theorem candidate_order_is_not_compared :
  forall (python_order rust_order rust_order' : dict),
    Permutation rust_order rust_order' ->
    NoDup (keys rust_order) ->
    field_loop python_order rust_order = field_loop python_order rust_order'
    /\ key_check python_order rust_order = key_check python_order rust_order'.
Proof.
  intros python_order rust_order rust_order' Hp Hnd. split.
  - unfold field_loop. apply List.map_ext. intros k.
    now rewrite (get_permutation rust_order rust_order' k Hp Hnd).
  - assert (key_set rust_order = key_set rust_order') as Hs.
    { apply set_eq. intros k. rewrite !elem_of_key_set. unfold keys.
      now rewrite Hp. }
    unfold key_check. now rewrite Hs.
Qed.

Lemma candidate_order_is_not_compared_witness :
  field_loop PYTHON_ORDER RUST_ORDER = field_loop PYTHON_ORDER (rev RUST_ORDER)
  /\ key_check PYTHON_ORDER RUST_ORDER = key_check PYTHON_ORDER (rev RUST_ORDER).
Proof.
  apply candidate_order_is_not_compared.
  - apply Permutation_rev.
  - apply (bool_decide_unpack _). vm_compute. exact I.
Defined.

End ComparisonCoverage.
